(** * hds-osc: the update pipeline of the heart-rate bridge

    A shallow embedding of the Go sources of github.com/motoki317/hds-osc
    (the receivers of [receive.go] and the exporters of [export.go], in
    their multi-key form) together with the properties of the fan-out
    pipeline.  version.go, and then the single-metric form of the two
    files and the first main.go in the module [SingleMetric], follow.

    Conventions of the embedding.
    - Go's [int] and [time.Duration] are 64-bit; they are values of [Z]
      and every operation that can wrap writes the wrap-around out.
    - [float64] is IEEE-754 binary64, carried by [spec_float] of the
      standard library with precision 53 and maximal exponent 1024.
    - [time.Time] is the number of nanoseconds since the zero instant
      (January 1, year 1, 00:00:00 UTC); the clock reading is an input of
      every operation that calls [time.Now] or [time.Since].
    - A method with a pointer receiver takes the receiver's state and
      returns the new one; what it writes to the outside world (log lines,
      channel sends, network messages) is returned as a list of [event]s
      in program order.
    - Calls run one after the other: a handler, an [Update] and a step of a
      subscriber's goroutine are each taken as a whole, which is what the
      mutexes of the exporters give for the state they guard.
    - Of the libraries, [strconv.ParseFloat], [osc.Client.Send] and the
      content negotiation of the metrics handler are parameters; the
      errors with which gorilla/websocket ends a read loop are written
      out in the module [Websocket]. *)

From Stdlib Require Import ZArith List Bool Lia.
From Stdlib Require Import Strings.String Strings.Ascii.
From Stdlib Require Import Numbers.DecimalString.
From Stdlib Require Import Floats.SpecFloat.
Import ListNotations.

Local Open Scope string_scope.
Local Open Scope list_scope.
Local Open Scope Z_scope.

(** ** Go's 64-bit integers *)

Module Int64.
Definition min_int : Z := - 2 ^ 63.
Definition max_int : Z := 2 ^ 63 - 1.

Definition in_range (z : Z) : bool := (min_int <=? z) && (z <=? max_int).

(** Two's-complement wrap-around of a mathematical integer. *)
Definition wrap (z : Z) : Z := (z + 2 ^ 63) mod 2 ^ 64 - 2 ^ 63.

Definition mul (a b : Z) : Z := wrap (a * b).

(** The built-in [min] on integers. *)
Definition min (a b : Z) : Z := if a <? b then a else b.

(** Saturation, as [time.Time.Sub] does on overflow. *)
Definition saturate (z : Z) : Z :=
  if z <? min_int then min_int else if max_int <? z then max_int else z.
End Int64.

(** ** float64 *)

Definition float64 : Type := spec_float.

Module Float64.
Definition prec : Z := 53.
Definition emax : Z := 1024.

(** The dyadic number [m * 2^e], rounded to nearest, ties to even. *)
Definition of_dyadic (m e : Z) : float64 :=
  binary_normalize prec emax m e false.

(** The conversion [float64(n)] of an integer: round to nearest, ties to
    even. *)
Definition of_int (n : Z) : float64 := of_dyadic n 0.

(** The quotient [x / y]. *)
Definition div (x y : float64) : float64 := SFdiv prec emax x y.

(** The conversion [int(f)]: the fraction is discarded.  For a value that
    [int] cannot hold (NaN, the infinities, magnitudes of 2^63 and more) Go
    leaves the result to the implementation; amd64 gives the least
    integer, which is what is written here. *)
Definition to_int (f : float64) : Z :=
  match f with
  | S754_zero _ => 0
  | S754_finite s m e =>
      let a := Z.shiftl (Zpos m) e in
      let v := if s then - a else a in
      if Int64.in_range v then v else Int64.min_int
  | S754_infinity _ => Int64.min_int
  | S754_nan => Int64.min_int
  end.

Definition is_finite (f : float64) : bool :=
  match f with
  | S754_zero _ | S754_finite _ _ _ => true
  | _ => false
  end.
End Float64.

(** ** The parts of package [time] the program uses *)

Module GoTime.
(** [time.Time]: nanoseconds since the zero instant. *)
Definition time : Type := Z.
(** [time.Duration]: a 64-bit count of nanoseconds. *)
Definition Duration : Type := Z.

Definition zero : time := 0.
Definition IsZero (t : time) : bool := t =? 0.

Definition Second : Duration := 1000000000.
Definition Minute : Duration := 60 * Second.

(** [time.Since(t)] read at clock value [now]: the difference, saturated
    to the range of [Duration]. *)
Definition Since (now t : time) : Duration := Int64.saturate (now - t).
End GoTime.

(** ** [strings.Split] with a one-byte separator *)

Module GoStrings.
(** [Split s sep] cuts [s] at every occurrence of [sep]; the result has
    one more element than [s] has separators. *)
Fixpoint Split (s : string) (sep : ascii) : list string :=
  match s with
  | EmptyString => [EmptyString]
  | String a rest =>
      if Ascii.eqb a sep then EmptyString :: Split rest sep
      else match Split rest sep with
           | piece :: pieces => String a piece :: pieces
           | [] => [String a EmptyString]
           end
  end.

(** [strings.Count s sep] for a one-byte separator. *)
Fixpoint Count (s : string) (sep : ascii) : nat :=
  match s with
  | EmptyString => O
  | String a rest =>
      if Ascii.eqb a sep then S (Count rest sep) else Count rest sep
  end.
End GoStrings.

(** ** receive.go: the health record *)

Record healthData : Type := mkHealthData {
  Time : GoTime.time;
  HeartRate : Z;
  StepCount : Z;
  DistanceTraveled : float64;
  Speed : float64;
  Calories : Z
}.

(** The zero value of the struct. *)
Definition healthData_zero : healthData :=
  mkHealthData GoTime.zero 0 0 (S754_zero false) (S754_zero false) 0.

(** Assignments to one field of the struct. *)
Definition set_Time (t : GoTime.time) (d : healthData) : healthData :=
  mkHealthData t (HeartRate d) (StepCount d) (DistanceTraveled d) (Speed d)
               (Calories d).
Definition set_HeartRate (n : Z) (d : healthData) : healthData :=
  mkHealthData (Time d) n (StepCount d) (DistanceTraveled d) (Speed d)
               (Calories d).
Definition set_StepCount (n : Z) (d : healthData) : healthData :=
  mkHealthData (Time d) (HeartRate d) n (DistanceTraveled d) (Speed d)
               (Calories d).
Definition set_DistanceTraveled (x : float64) (d : healthData) : healthData :=
  mkHealthData (Time d) (HeartRate d) (StepCount d) x (Speed d) (Calories d).
Definition set_Speed (x : float64) (d : healthData) : healthData :=
  mkHealthData (Time d) (HeartRate d) (StepCount d) (DistanceTraveled d) x
               (Calories d).
Definition set_Calories (n : Z) (d : healthData) : healthData :=
  mkHealthData (Time d) (HeartRate d) (StepCount d) (DistanceTraveled d)
               (Speed d) n.

(** ** What the program writes to the outside world *)

Inductive logLevel : Type := LevelInfo | LevelWarn | LevelError.

(** export.go: the frame of the live stream. *)
Record wsUpdateMessage : Type := mkWsUpdateMessage {
  Data : healthData;
  UpdatedKey : string
}.

Inductive event : Type :=
| Log (level : logLevel) (msg : string)
| ChanSend (ch : nat) (msg : wsUpdateMessage)
| ConnWriteJSON (conn : nat) (msg : wsUpdateMessage)
| OSCSend (addr : string) (args : list float64).

Definition error : Type := string.

(** The cases of the [switch] of [healthData.Update]. *)
Definition recognizedKeys : list string :=
  ["heartRate"; "stepCount"; "distanceTraveled"; "speed"; "calories"].

(** [func (d *healthData) Update(key string, value float64)], run when the
    clock reads [now]. *)
Definition healthData_Update (d : healthData) (now : GoTime.time)
    (key : string) (value : float64) : healthData * list event :=
  let d := set_Time now d in
  if String.eqb key "heartRate" then
    (set_HeartRate (Float64.to_int value) d, [])
  else if String.eqb key "stepCount" then
    (set_StepCount (Float64.to_int value) d, [])
  else if String.eqb key "distanceTraveled" then
    (set_DistanceTraveled value d, [])
  else if String.eqb key "speed" then
    (set_Speed value d, [])
  else if String.eqb key "calories" then
    (set_Calories (Float64.to_int value) d, [])
  else
    (d, [Log LevelWarn "Unknown key"]).

(** ** export.go: the exporter interface *)

(** [type exporter interface { Update(data healthData, updatedKey string)
    error }].  The receiver of every implementation is a pointer, so
    [Update] returns the new state of the exporter next to what it wrote
    and its error. *)
Class exporter (E : Type) : Type := {
  Update : E -> healthData -> string -> E * list event * option error
}.

(** ** net/http: what a handler leaves in its ResponseWriter *)

Inductive metricType : Type := Gauge | Counter.

Record metricFamily : Type := mkMetricFamily {
  mf_name : string;
  mf_help : string;
  mf_type : metricType;
  mf_value : float64
}.

Inductive body : Type :=
| NoBody
| TextBody (text : string)
| JSONBody (d : healthData)
| MetricsBody (families : list metricFamily).

Record response : Type := mkResponse {
  StatusCode : Z;
  ContentType : option string;
  Body : body
}.

Definition StatusOK : Z := 200.
Definition StatusBadRequest : Z := 400.
Definition StatusNotFound : Z := 404.

Definition newline : string := String (ascii_of_nat 10) EmptyString.

(** [http.Error(w, msg, code)] on a writer nothing was written to. *)
Definition http_Error (msg : string) (code : Z) : response :=
  mkResponse code (Some "text/plain; charset=utf-8")
             (TextBody (msg ++ newline)%string).

(** ** receive.go: the push receiver *)

Record hdsRequest : Type := mkHdsRequest { req_Data : string }.

(** What [json.NewDecoder(r.Body).Decode(&data)] makes of a request body. *)
Inductive decodedBody : Type :=
| DecodeError (err : error)
| Decoded (data : hdsRequest).

(** The body [{"data": data}] of a PUT, decoded. *)
Definition putData (data : string) : decodedBody :=
  Decoded (mkHdsRequest data).

Section Receivers.
Context {E : Type} `{exporter E}.

(** [strconv.ParseFloat(s, 64)]: [None] stands for a non-nil error. *)
Variable ParseFloat : string -> option float64.

Record hdsReceiver : Type := mkHdsReceiver {
  hds_exporters : list E;
  hds_data : healthData
}.

Definition newHDSReceiver (exporters : list E) : hdsReceiver :=
  mkHdsReceiver exporters healthData_zero.

(** The loop [for _, s := range exporters { if err = s.Update(data, key);
    err != nil { slog.Error(...) } }], shared by both receivers. *)
Fixpoint notifyExporters (exporters : list E) (data : healthData)
    (key : string) : list E * list event :=
  match exporters with
  | [] => ([], [])
  | s :: rest =>
      let '(s', evs, err) := Update s data key in
      let failed := match err with
                    | Some _ => [Log LevelError "Sending data"]
                    | None => []
                    end in
      let '(rest', evs') := notifyExporters rest data key in
      (s' :: rest', evs ++ failed ++ evs')
  end.

(** [func (h *hdsReceiver) dataHandler(w, r)], run when the clock reads
    [now] on a request whose body decodes to [r]. *)
Definition hdsReceiver_dataHandler (h : hdsReceiver) (now : GoTime.time)
    (r : decodedBody) : hdsReceiver * response * list event :=
  match r with
  | DecodeError err =>
      (h, http_Error err StatusBadRequest,
       [Log LevelError "error decoding request"])
  | Decoded data =>
      let received := Log LevelInfo "Received hds req" in
      let parts := GoStrings.Split (req_Data data) ":" in
      if negb (Nat.eqb (List.length parts) 2) then
        (h, http_Error "Invalid data format" StatusBadRequest,
         [received; Log LevelError "Invalid data format"])
      else
        let key := nth 0 parts "" in
        let valueStr := nth 1 parts "" in
        match ParseFloat valueStr with
        | None =>
            (h, http_Error "Invalid value format" StatusBadRequest,
             [received; Log LevelError "Error parsing value"])
        | Some value =>
            let '(d, warned) := healthData_Update (hds_data h) now key value in
            let '(exporters, sent) := notifyExporters (hds_exporters h) d key in
            (mkHdsReceiver exporters d,
             mkResponse StatusOK None NoBody,
             received :: warned ++ sent)
        end
  end.

(** *** The pull receiver *)

Record wsPullReceiver : Type := mkWsPullReceiver {
  ws_exporters : list E;
  ws_addr : string;
  nextBackoff : GoTime.Duration
}.

Definition wsPullFirstWait : GoTime.Duration := GoTime.Second.
Definition wsPullMaxBackoff : GoTime.Duration := 10 * GoTime.Minute.

Definition newWSPullReceiver (exporters : list E) (addr : string)
    : wsPullReceiver :=
  mkWsPullReceiver exporters addr wsPullFirstWait.

(** How the read loop of one connection ends: [ReadMessage] reports
    [io.EOF], reports another error, or delivers a frame that does not
    decode.  These are the branches of [connect]; which of them the
    library takes a connection to is the matter of [sessionOf] below. *)
Inductive sessionEnd : Type :=
| EndEOF
| EndReadError (err : error)
| EndDecodeError (err : error).

(** What one call of [connect] meets on the network: the dial fails, or
    it succeeds and the peer delivers the frames [msgs] before the
    connection ends. *)
Inductive session : Type :=
| DialError (err : error)
| Dialed (msgs : list wsUpdateMessage) (ending : sessionEnd).

(** The body of the [for] loop of [connect] over the frames that decode. *)
Fixpoint receiveMessages (exporters : list E) (msgs : list wsUpdateMessage)
    : list E * list event :=
  match msgs with
  | [] => (exporters, [])
  | msg :: rest =>
      let '(exporters, sent) :=
        notifyExporters exporters (Data msg) (UpdatedKey msg) in
      let '(exporters, evs) := receiveMessages exporters rest in
      (exporters, Log LevelInfo "Received msg" :: sent ++ evs)
  end.

(** [func (h *wsPullReceiver) connect() error]. *)
Definition wsPullReceiver_connect (h : wsPullReceiver) (s : session)
    : wsPullReceiver * list event * option error :=
  match s with
  | DialError err => (h, [], Some ("dialing websocket server: " ++ err)%string)
  | Dialed msgs ending =>
      let '(exporters, evs) := receiveMessages (ws_exporters h) msgs in
      let h := mkWsPullReceiver exporters (ws_addr h) (nextBackoff h) in
      let evs :=
        Log LevelInfo "WebSocket connected, now receiving messages..." :: evs in
      match ending with
      | EndEOF => (h, evs, None)
      | EndReadError err =>
          (h, evs, Some ("reading websocket: " ++ err)%string)
      | EndDecodeError err =>
          (h, evs, Some ("decoding websocket message: " ++ err)%string)
      end
  end.

(** One turn of the [for] loop of [func (h *wsPullReceiver) Start()]: the
    new state, what the turn wrote, and the argument of its
    [time.Sleep]. *)
Definition wsPullReceiver_Start_turn (h : wsPullReceiver) (s : session)
    : wsPullReceiver * list event * GoTime.Duration :=
  let '(h, evs, err) := wsPullReceiver_connect h s in
  match err with
  | None =>
      let h := mkWsPullReceiver (ws_exporters h) (ws_addr h) wsPullFirstWait in
      (h, evs ++ [Log LevelInfo "Reconnecting in"], nextBackoff h)
  | Some _ =>
      let slept := nextBackoff h in
      let h := mkWsPullReceiver (ws_exporters h) (ws_addr h)
                 (Int64.min (Int64.mul (nextBackoff h) 2) wsPullMaxBackoff) in
      (h, evs ++ [Log LevelError "WebSocket connection";
                  Log LevelError "Reconnecting in"], slept)
  end.

(** [Start] never returns; [wsPullReceiver_Start h sessions] is the run of
    its loop through the sessions of [sessions], one per turn, with the
    trace and the sleep of each turn. *)
Fixpoint wsPullReceiver_Start (h : wsPullReceiver) (sessions : list session)
    : wsPullReceiver * list (list event * GoTime.Duration) :=
  match sessions with
  | [] => (h, [])
  | s :: rest =>
      let '(h, evs, slept) := wsPullReceiver_Start_turn h s in
      let '(h, turns) := wsPullReceiver_Start h rest in
      (h, (evs, slept) :: turns)
  end.

(** The push receiver after the requests of [reqs], oldest first, each with
    the reading of the clock when it is handled. *)
Definition hdsReceiver_run (h : hdsReceiver)
    (reqs : list (GoTime.time * decodedBody)) : hdsReceiver :=
  fold_left
    (fun h r => fst (fst (hdsReceiver_dataHandler h (fst r) (snd r)))) reqs h.

(** A session ends cleanly when the stream ends with no error. *)
Definition endsCleanly (s : session) : bool :=
  match s with
  | Dialed _ EndEOF => true
  | _ => false
  end.

(** The backoff stays between the first wait and the maximum. *)
Definition backoffBounded (h : wsPullReceiver) : Prop :=
  wsPullFirstWait <= nextBackoff h <= wsPullMaxBackoff.

(** What one exporter contributes to the trace of the fan-out loop. *)
Definition notified (data : healthData) (key : string) (s : E) : list event :=
  snd (fst (Update s data key))
  ++ match snd (Update s data key) with
     | Some _ => [Log LevelError "Sending data"]
     | None => []
     end.
End Receivers.

(** ** export.go: the broadcast server *)

Record httpServerExporter : Type := mkHttpServerExporter {
  (** [clients []chan *wsUpdateMessage]: the channels, by identity. *)
  clients : list nat;
  hse_data : healthData
}.

(** Where the goroutine of one [connectWS] call stands in its send loop:
    blocked in the [select], or holding a message it took from its channel
    and has yet to write. *)
Inductive subscriberState : Type :=
| Selecting
| Holding (msg : wsUpdateMessage).

Record subscriber : Type := mkSubscriber {
  sub_conn : nat;
  sub_ch : nat;
  sub_state : subscriberState
}.

(** The exporter with the goroutines that serve its stream endpoint and
    the count of channels made so far. *)
Record broadcastServer : Type := mkBroadcastServer {
  srv : httpServerExporter;
  subscribers : list subscriber;
  madeChans : nat
}.

(** [newHTTPServerExporter(port)]; the listener it starts is what runs
    [getLatest] and [connectWS] below. *)
Definition newHTTPServerExporter (port : Z) : broadcastServer :=
  mkBroadcastServer (mkHttpServerExporter [] healthData_zero) [] 0.

(** A send on the unbuffered channel [ch] can proceed at once exactly when a
    goroutine is blocked receiving from it. *)
Definition selecting (ch : nat) (s : subscriber) : bool :=
  Nat.eqb (sub_ch s) ch &&
  match sub_state s with Selecting => true | Holding _ => false end.

Definition canReceive (subs : list subscriber) (ch : nat) : bool :=
  existsb (selecting ch) subs.

(** The hand-over of [msg] to the first goroutine blocked on [ch]. *)
Fixpoint handOver (subs : list subscriber) (ch : nat) (msg : wsUpdateMessage)
    : list subscriber :=
  match subs with
  | [] => []
  | s :: rest =>
      if selecting ch s
      then mkSubscriber (sub_conn s) (sub_ch s) (Holding msg) :: rest
      else s :: handOver rest ch msg
  end.

(** The loop [for _, ch := range h.clients { select { case ch <- &msg:
    default: } }]. *)
Fixpoint sendToClients (chans : list nat) (subs : list subscriber)
    (msg : wsUpdateMessage) : list subscriber * list event :=
  match chans with
  | [] => (subs, [])
  | ch :: rest =>
      if canReceive subs ch then
        let '(subs, evs) := sendToClients rest (handOver subs ch msg) msg in
        (subs, ChanSend ch msg :: evs)
      else
        sendToClients rest subs msg
  end.

(** [func (h *httpServerExporter) Update(data, updatedKey) error]. *)
Definition httpServerExporter_Update (b : broadcastServer) (data : healthData)
    (updatedKey : string) : broadcastServer * list event * option error :=
  let msg := mkWsUpdateMessage data updatedKey in
  let '(subs, evs) := sendToClients (clients (srv b)) (subscribers b) msg in
  (mkBroadcastServer (srv b) subs (madeChans b), evs, None).

(** [json.Encoder.Encode] rejects a float that is not finite. *)
Definition json_encodable (d : healthData) : bool :=
  Float64.is_finite (DistanceTraveled d) && Float64.is_finite (Speed d).

(** [func (h *httpServerExporter) getLatest(w, _)]. *)
Definition httpServerExporter_getLatest (h : httpServerExporter)
    : response * list event :=
  if GoTime.IsZero (Time (hse_data h)) then
    (mkResponse StatusNotFound None NoBody, [])
  else if json_encodable (hse_data h) then
    (mkResponse StatusOK (Some "application/json") (JSONBody (hse_data h)), [])
  else
    (* the status line is out already: http.Error only adds its text *)
    (mkResponse StatusOK (Some "application/json")
                (TextBody ("Internal Server Error" ++ newline)%string),
     [Log LevelError "Serving GET /latest"]).

(** [lo.Without(h.clients, ch)]. *)
Definition Without (chans : list nat) (ch : nat) : list nat :=
  filter (fun c => negb (Nat.eqb c ch)) chans.

(** The deferred function of [connectWS]: the goroutine of [ch] leaves. *)
Definition deregister (b : broadcastServer) (ch : nat)
    : broadcastServer * list event :=
  (mkBroadcastServer
     (mkHttpServerExporter (Without (clients (srv b)) ch) (hse_data (srv b)))
     (filter (fun s => negb (Nat.eqb (sub_ch s) ch)) (subscribers b))
     (madeChans b),
   [Log LevelInfo "Closing WebSocket connection"]).

(** [func (h *httpServerExporter) connectWS(w, r)] from its start to the
    first [select] of its send loop.  [upgraded] tells whether
    [h.upgrader.Upgrade] succeeded and gives the connection; [written] is
    the outcome of the first [conn.WriteJSON], when there is one.
    [ConnWriteJSON] records the call. *)
Definition httpServerExporter_connectWS (b : broadcastServer)
    (upgraded : option nat) (written : bool) : broadcastServer * list event :=
  match upgraded with
  | None => (b, [Log LevelError "Upgrading connection"])
  | Some conn =>
      let ch := madeChans b in
      let h :=
        mkHttpServerExporter (clients (srv b) ++ [ch]) (hse_data (srv b)) in
      let b := mkBroadcastServer h (subscribers b) (S (madeChans b)) in
      let opened := Log LevelInfo "New WebSocket connection" in
      let park b :=
        mkBroadcastServer (srv b)
          (subscribers b ++ [mkSubscriber conn ch Selecting]) (madeChans b) in
      let data := hse_data h in
      if negb (GoTime.IsZero (Time data)) then
        let msg := mkWsUpdateMessage data "all" in
        if written then
          (park b, [opened; ConnWriteJSON conn msg])
        else
          let '(b, closed) := deregister b ch in
          (b, [opened; ConnWriteJSON conn msg;
               Log LevelError "Writing message"] ++ closed)
      else
        (park b, [opened])
  end.

(** The [case msg := <-ch] arm of the send loop: the goroutine of [ch]
    writes the message it holds; [written] is the outcome of
    [conn.WriteJSON]. *)
Definition subscriber_write (b : broadcastServer) (ch : nat) (written : bool)
    : broadcastServer * list event :=
  match find (fun s => Nat.eqb (sub_ch s) ch) (subscribers b) with
  | Some (mkSubscriber conn _ (Holding msg)) =>
      if written then
        (mkBroadcastServer (srv b)
           (map (fun s => if Nat.eqb (sub_ch s) ch
                          then mkSubscriber (sub_conn s) ch Selecting else s)
                (subscribers b))
           (madeChans b),
         [ConnWriteJSON conn msg])
      else
        let '(b, closed) := deregister b ch in
        (b, [ConnWriteJSON conn msg; Log LevelError "Writing message"]
            ++ closed)
  | _ => (b, [])
  end.

(** The [case <-ctx.Done()] arm: the peer of [ch] went away while its
    goroutine was blocked in the [select]. *)
Definition subscriber_done (b : broadcastServer) (ch : nat)
    : broadcastServer * list event :=
  if canReceive (subscribers b) ch then deregister b ch else (b, []).

#[export] Instance httpServerExporter_exporter : exporter broadcastServer :=
  {| Update := httpServerExporter_Update |}.

(** ** export.go: the signal sender *)

Record oscClient : Type := mkOscClient { osc_ip : string; osc_port : Z }.

(** [osc.Message]: the address and the arguments appended to it. *)
Record oscMessage : Type := mkOscMessage {
  osc_address : string;
  osc_arguments : list float64
}.

Record oscExporter : Type := mkOscExporter {
  client : oscClient;
  heartRateMax : float64;
  addrName : string
}.

Definition newOSCExporter (sendIP : string) (sendPort : Z) (addrName : string)
    : oscExporter :=
  mkOscExporter (mkOscClient sendIP sendPort) (Float64.of_int 256) addrName.

Section SignalSender.
(** The outcome of [osc.Client.Send], which the network decides. *)
Variable osc_Client_Send : oscClient -> oscMessage -> option error.

(** [func (o *oscExporter) Update(data, updatedKey) error].  [OSCSend]
    records the call of [o.client.Send]. *)
Definition oscExporter_Update (o : oscExporter) (data : healthData)
    (updatedKey : string) : oscExporter * list event * option error :=
  if negb (String.eqb updatedKey "heartRate")
     && negb (String.eqb updatedKey "all") then
    (o, [], None)
  else
    let msg := mkOscMessage (addrName o) [] in
    let floatRate :=
      Float64.div (Float64.of_int (HeartRate data)) (heartRateMax o) in
    let msg :=
      mkOscMessage (osc_address msg) (osc_arguments msg ++ [floatRate]) in
    (o, [OSCSend (osc_address msg) (osc_arguments msg)],
     osc_Client_Send (client o) msg).

Definition oscExporter_exporter : exporter oscExporter :=
  {| Update := oscExporter_Update |}.
End SignalSender.

(** ** export.go: the metrics endpoint *)

Record prometheusExporter : Type := mkPrometheusExporter {
  prom_data : healthData
}.

(** The five collectors of [newPrometheusExporter]: each reads the record
    when it is collected. *)
Definition prom_heartRate (e : prometheusExporter) : metricFamily :=
  mkMetricFamily "heart_rate" "Current heart rate in beats per minute" Gauge
                 (Float64.of_int (HeartRate (prom_data e))).
Definition prom_stepCount (e : prometheusExporter) : metricFamily :=
  mkMetricFamily "step_count" "Current step count" Counter
                 (Float64.of_int (StepCount (prom_data e))).
Definition prom_distanceTraveled (e : prometheusExporter) : metricFamily :=
  mkMetricFamily "distance_traveled" "Current distance traveled in meters"
                 Counter (DistanceTraveled (prom_data e)).
Definition prom_speed (e : prometheusExporter) : metricFamily :=
  mkMetricFamily "speed" "Current speed in meters per second" Gauge
                 (Speed (prom_data e)).
Definition prom_calories (e : prometheusExporter) : metricFamily :=
  mkMetricFamily "calories" "Current calories burned" Counter
                 (Float64.of_int (Calories (prom_data e))).

(** What [Gather] returns for the registry of [newPrometheusExporter]: the
    five families, sorted by name. *)
Definition registry_Gather (e : prometheusExporter) : list metricFamily :=
  [prom_calories e; prom_distanceTraveled e; prom_heartRate e;
   prom_speed e; prom_stepCount e].

Definition newPrometheusExporter (port : Z) : prometheusExporter :=
  mkPrometheusExporter healthData_zero.

(** [func (p *prometheusExporter) Update(data, _ string) error]. *)
Definition prometheusExporter_Update (p : prometheusExporter)
    (data : healthData) (_ : string)
    : prometheusExporter * list event * option error :=
  (mkPrometheusExporter data, [], None).

Definition freshnessWindow : GoTime.Duration := 30 * GoTime.Second.

Section MetricsEndpoint.
(** [expfmt.Negotiate] of prometheus/common, from the Accept header of a
    request to the Content-Type of the answer.  The handler that
    [promhttp.HandlerFor] makes with no options sets the header of its
    answer to what this function returns. *)
Variable expfmt_Negotiate : string -> string.

(** [func (p *prometheusExporter) ServeHTTP(w, r)], run when the clock reads
    [now] on a request whose Accept header is [accept].  The first branch
    sets the header itself; the second leaves the answer to the handler of
    [promhttp.HandlerFor], whose exposition is kept as the families it
    gathers and whose Content-Type is the one the library negotiates. *)
Definition prometheusExporter_ServeHTTP (p : prometheusExporter)
    (accept : string) (now : GoTime.time) : response :=
  let lastReceived := Time (prom_data p) in
  if GoTime.IsZero lastReceived
     || (freshnessWindow <? GoTime.Since now lastReceived) then
    mkResponse StatusOK (Some "text/plain; version=0.0.4; charset=utf-8") NoBody
  else
    mkResponse StatusOK (Some (expfmt_Negotiate accept))
               (MetricsBody (registry_Gather p)).
End MetricsEndpoint.

#[export] Instance prometheusExporter_exporter : exporter prometheusExporter :=
  {| Update := prometheusExporter_Update |}.

(** The value of the family called [name] in a response. *)
Definition metricValue (name : string) (r : response) : option float64 :=
  match Body r with
  | MetricsBody families =>
      option_map mf_value
                 (find (fun f => String.eqb (mf_name f) name) families)
  | _ => None
  end.

(** ** main.go: the exporters a receiver is started with *)

Inductive anyExporter : Type :=
| WSServer (b : broadcastServer)
| OSC (o : oscExporter)
| Prom (p : prometheusExporter).

Section Main.
Variable osc_Client_Send : oscClient -> oscMessage -> option error.

Definition anyExporter_Update (x : anyExporter) (data : healthData)
    (updatedKey : string) : anyExporter * list event * option error :=
  match x with
  | WSServer b =>
      let '(b, evs, err) := httpServerExporter_Update b data updatedKey in
      (WSServer b, evs, err)
  | OSC o =>
      let '(o, evs, err) :=
        oscExporter_Update osc_Client_Send o data updatedKey in
      (OSC o, evs, err)
  | Prom p =>
      let '(p, evs, err) := prometheusExporter_Update p data updatedKey in
      (Prom p, evs, err)
  end.

Definition anyExporter_exporter : exporter anyExporter :=
  {| Update := anyExporter_Update |}.
End Main.

(** ** Runs of the components *)

(** What can happen to a broadcast server, one step at a time: a receiver
    calls [Update]; a client asks for the stream; the goroutine of a channel
    writes the message it holds; the peer of a channel goes away. *)
Inductive serverStep : Type :=
| DoUpdate (data : healthData) (updatedKey : string)
| DoConnectWS (upgraded : option nat) (written : bool)
| DoWrite (ch : nat) (written : bool)
| DoDone (ch : nat).

Definition server_step (b : broadcastServer) (st : serverStep)
    : broadcastServer * list event :=
  match st with
  | DoUpdate data updatedKey =>
      let '(b, evs, _) := httpServerExporter_Update b data updatedKey in
      (b, evs)
  | DoConnectWS upgraded written =>
      httpServerExporter_connectWS b upgraded written
  | DoWrite ch written => subscriber_write b ch written
  | DoDone ch => subscriber_done b ch
  end.

Definition server_run (b : broadcastServer) (steps : list serverStep)
    : broadcastServer :=
  fold_left (fun b st => fst (server_step b st)) steps b.

(** The registry of a broadcast server is well formed: no channel is
    registered twice, no two goroutines share a channel, every goroutine's
    channel is registered, and every registered channel has been made. *)
Definition registryWellFormed (b : broadcastServer) : Prop :=
  NoDup (clients (srv b)) /\
  NoDup (map sub_ch (subscribers b)) /\
  incl (map sub_ch (subscribers b)) (clients (srv b)) /\
  (forall ch, In ch (clients (srv b)) -> (ch < madeChans b)%nat).

(** What a subscriber's goroutine holds after a broadcast of [msg] to the
    channels [chans]: the message, if it was blocked in its [select] on one
    of them; what it held before, otherwise. *)
Definition afterBroadcast (chans : list nat) (msg : wsUpdateMessage)
    (s : subscriber) : subscriber :=
  match sub_state s with
  | Selecting =>
      if existsb (Nat.eqb (sub_ch s)) chans
      then mkSubscriber (sub_conn s) (sub_ch s) (Holding msg)
      else s
  | Holding _ => s
  end.

(** The metrics endpoint after the [Update] calls of [updates], oldest
    first. *)
Definition prometheus_run (port : Z) (updates : list (healthData * string))
    : prometheusExporter :=
  fold_left (fun p u => fst (fst (prometheusExporter_Update p (fst u) (snd u))))
            updates (newPrometheusExporter port).

(** ** Fixtures for running the program on concrete inputs *)

(** An exporter that keeps the calls it receives, as a test would
    register. *)
Record recorder : Type := mkRecorder { received : list (healthData * string) }.

Definition recorder_Update (r : recorder) (data : healthData)
    (updatedKey : string) : recorder * list event * option error :=
  (mkRecorder (received r ++ [(data, updatedKey)]), [], None).

#[export] Instance recorder_exporter : exporter recorder :=
  {| Update := recorder_Update |}.

(** [strconv.ParseFloat] on the runs of decimal digits whose value is in
    the range of float64; this fragment rejects every other string. *)
Fixpoint digitsValue (s : string) (acc : Z) : option Z :=
  match s with
  | EmptyString => Some acc
  | String c rest =>
      let n := Z.of_nat (nat_of_ascii c) - 48 in
      if (0 <=? n) && (n <=? 9) then digitsValue rest (10 * acc + n) else None
  end.

Definition ParseFloat_digits (s : string) : option float64 :=
  match s with
  | EmptyString => None
  | _ =>
      match digitsValue s 0 with
      | Some n =>
          let f := Float64.of_int n in
          if Float64.is_finite f then Some f else None
      | None => None
      end
  end.

(** A record with a time and a heart rate and nothing else. *)
Definition record_at (t : GoTime.time) (heartRate : Z) : healthData :=
  mkHealthData t heartRate 0 (S754_zero false) (S754_zero false) 0.

(** A network on which every OSC send succeeds. *)
Definition osc_Send_ok (_ : oscClient) (_ : oscMessage) : option error := None.

(** [expfmt.Negotiate] for the scrapes that ask for no other format and no
    other escaping: the text format with the escaping scheme the library
    starts with. *)
Definition Negotiate_text (_ : string) : string :=
  "text/plain; version=0.0.4; charset=utf-8; escaping=underscores".

(** ** Further runs and observations *)

(** [strings.Join(parts, sep)] with a one-byte separator. *)
Fixpoint Join (parts : list string) (sep : ascii) : string :=
  match parts with
  | [] => EmptyString
  | piece :: rest =>
      match rest with
      | [] => piece
      | _ :: _ => (piece ++ String sep (Join rest sep))%string
      end
  end.

(** One call of [healthData.Update]: the clock it reads and its arguments. *)
Record updateCall : Type := mkUpdateCall {
  call_time : GoTime.time;
  call_key : string;
  call_value : float64
}.

(** The record after the calls of [calls], oldest first. *)
Definition healthData_run (d : healthData) (calls : list updateCall)
    : healthData :=
  fold_left
    (fun d c => fst (healthData_Update d (call_time c) (call_key c)
                       (call_value c)))
    calls d.

(** The value of the latest call that names [key], if there is one. *)
Definition latestValue (key : string) (calls : list updateCall)
    : option float64 :=
  option_map call_value
             (find (fun c => String.eqb (call_key c) key) (rev calls)).

(** What the steps of [steps] write, in order. *)
Fixpoint server_trace (b : broadcastServer) (steps : list serverStep)
    : list event :=
  match steps with
  | [] => []
  | st :: rest =>
      let '(b, evs) := server_step b st in
      evs ++ server_trace b rest
  end.

(** The registered channels are those of the goroutines, in order. *)
Definition registryMatchesGoroutines (b : broadcastServer) : Prop :=
  clients (srv b) = map sub_ch (subscribers b).

(** Two floats are the same datum. *)
Definition float64_same (x y : float64) : bool :=
  match x, y with
  | S754_zero a, S754_zero b => Bool.eqb a b
  | S754_infinity a, S754_infinity b => Bool.eqb a b
  | S754_nan, S754_nan => true
  | S754_finite s m e, S754_finite s' m' e' =>
      Bool.eqb s s' && Pos.eqb m m' && Z.eqb e e'
  | _, _ => false
  end.

(** The frames a session delivers. *)
Definition sessionFrames (s : session) : list wsUpdateMessage :=
  match s with
  | DialError _ => []
  | Dialed msgs _ => msgs
  end.

Section ForwardedFrames.
Context {E : Type} `{exporter E}.

(** The exporters after each has been given the frames of [msgs], oldest
    first. *)
Definition forwardAll (exporters : list E) (msgs : list wsUpdateMessage)
    : list E :=
  fold_left
    (fun exporters msg =>
       map (fun s => fst (fst (Update s (Data msg) (UpdatedKey msg))))
           exporters)
    msgs exporters.
End ForwardedFrames.

(** ** version.go *)

(** The package variables [version], [revision], [buildDirty] and
    [buildTime]. *)
Record versionVars : Type := mkVersionVars {
  version : string;
  revision : string;
  buildDirty : bool;
  buildTime : string
}.

(** [debug.BuildSetting] and the parts of [debug.BuildInfo] that are read. *)
Record BuildSetting : Type := mkBuildSetting {
  Key : string;
  Value : string
}.

Record BuildInfo : Type := mkBuildInfo {
  Main_Version : string;
  Settings : list BuildSetting
}.

(** The slice expression [s[:n]]: it panics when [n] exceeds the length. *)
Definition slice_to (s : string) (n : nat) : option string :=
  if Nat.ltb (String.length s) n then None else Some (substring 0 n s).

(** The body of the loop of [init] for one setting; [None] is the run-time
    panic of the slice expression. *)
Definition init_setting (g : versionVars) (setting : BuildSetting)
    : option versionVars :=
  let revised :=
    if String.eqb (Key setting) "vcs.revision" then
      match slice_to (Value setting) 7 with
      | Some r =>
          Some (mkVersionVars (version g) r (buildDirty g) (buildTime g))
      | None => None
      end
    else Some g in
  match revised with
  | None => None
  | Some g =>
      let g :=
        if String.eqb (Key setting) "vcs.modified" then
          mkVersionVars (version g) (revision g)
                        (String.eqb (Value setting) "true") (buildTime g)
        else g in
      let g :=
        if String.eqb (Key setting) "vcs.time" then
          mkVersionVars (version g) (revision g) (buildDirty g) (Value setting)
        else g in
      Some g
  end.

Fixpoint init_settings (g : versionVars) (settings : list BuildSetting)
    : option versionVars :=
  match settings with
  | [] => Some g
  | setting :: rest =>
      match init_setting g setting with
      | Some g => init_settings g rest
      | None => None
      end
  end.

(** [func init()], given what [debug.ReadBuildInfo] returns ([None] when its
    [ok] is false) and the variables as the linker left them. *)
Definition version_init (read : option BuildInfo) (g : versionVars)
    : option versionVars :=
  match read with
  | None => Some g
  | Some info =>
      let g :=
        if String.eqb (version g) "" then
          mkVersionVars (Main_Version info) (revision g) (buildDirty g)
                        (buildTime g)
        else g in
      init_settings g (Settings info)
  end.

(** [lo.Ternary]. *)
Definition Ternary {A : Type} (condition : bool) (ifOutput elseOutput : A)
    : A :=
  if condition then ifOutput else elseOutput.

(** [func GetFormattedVersion() string]. *)
Definition GetFormattedVersion (g : versionVars) : string :=
  let revisionMeta :=
    (revision g
     ++ Ternary (buildDirty g) "+dirty" ""
     ++ Ternary (negb (String.eqb (buildTime g) ""))
                (", " ++ buildTime g) "")%string in
  if String.eqb revisionMeta "" then version g
  else (version g ++ " (" ++ revisionMeta ++ ")")%string.

(** The value of the last setting with the key [key], if there is one. *)
Definition lastSetting (key : string) (settings : list BuildSetting)
    : option string :=
  option_map Value (find (fun s => String.eqb (Key s) key) (rev settings)).

(** ** More of packages [strings] and [strconv] *)

(** [strings.CutPrefix(s, prefix)]: what follows the prefix, when [s] begins
    with it. *)
Fixpoint CutPrefix (s prefix : string) : option string :=
  match prefix with
  | EmptyString => Some s
  | String p prefix' =>
      match s with
      | EmptyString => None
      | String a s' => if Ascii.eqb a p then CutPrefix s' prefix' else None
      end
  end.

Definition HasPrefix (s prefix : string) : bool :=
  match CutPrefix s prefix with Some _ => true | None => false end.

Definition TrimPrefix (s prefix : string) : string :=
  match CutPrefix s prefix with Some after => after | None => s end.

Module GoStrconv.
(** The value of a run of decimal digits, most significant first. *)
Fixpoint digits (s : string) (acc : Z) : option Z :=
  match s with
  | EmptyString => Some acc
  | String c rest =>
      let n := Z.of_nat (nat_of_ascii c) - 48 in
      if (0 <=? n) && (n <=? 9) then digits rest (10 * acc + n) else None
  end.

(** The digits after the sign: there must be one at least, and the value
    must fit [int]. *)
Definition magnitude (negative : bool) (body : string) : option Z :=
  match body with
  | EmptyString => None
  | String _ _ =>
      match digits body 0 with
      | Some n =>
          let v := if negative then - n else n in
          if Int64.in_range v then Some v else None
      | None => None
      end
  end.

(** [strconv.Atoi(s)]: [None] stands for a non-nil error. *)
Definition Atoi (s : string) : option Z :=
  match s with
  | String "+" rest => magnitude false rest
  | String "-" rest => magnitude true rest
  | _ => magnitude false s
  end.
End GoStrconv.

(** ** gorilla/websocket: how the reads of a connection end *)

Module Websocket.
Definition CloseNormalClosure : Z := 1000.
Definition CloseGoingAway : Z := 1001.
Definition CloseProtocolError : Z := 1002.
Definition CloseUnsupportedData : Z := 1003.
Definition CloseNoStatusReceived : Z := 1005.
Definition CloseAbnormalClosure : Z := 1006.
Definition CloseInvalidFramePayloadData : Z := 1007.
Definition ClosePolicyViolation : Z := 1008.
Definition CloseMessageTooBig : Z := 1009.
Definition CloseMandatoryExtension : Z := 1010.
Definition CloseInternalServerErr : Z := 1011.
Definition CloseTLSHandshake : Z := 1015.

(** The error values in play: [io.EOF] itself, a [*CloseError], and any
    other error (of the network, of the protocol), none of which wraps
    [io.EOF]. *)
Inductive goError : Type :=
| io_EOF
| CloseError (code : Z) (text : string)
| OtherError (msg : string).

(** [errors.Is(err, io.EOF)].  [*CloseError] has no [Unwrap] and no [Is]
    method, so it matches no other error. *)
Definition errors_Is_EOF (err : goError) : bool :=
  match err with
  | io_EOF => true
  | CloseError _ _ => false
  | OtherError _ => false
  end.

(** [strconv.AppendInt(s, n, 10)], the digits appended. *)
Definition FormatInt (n : Z) : string := NilZero.string_of_int (Z.to_int n).

(** The [switch e.Code] of [func (e *CloseError) Error() string]. *)
Definition closeCodeText (code : Z) : string :=
  if code =? CloseNormalClosure then " (normal)"
  else if code =? CloseGoingAway then " (going away)"
  else if code =? CloseProtocolError then " (protocol error)"
  else if code =? CloseUnsupportedData then " (unsupported data)"
  else if code =? CloseNoStatusReceived then " (no status)"
  else if code =? CloseAbnormalClosure then " (abnormal closure)"
  else if code =? CloseInvalidFramePayloadData then " (invalid payload data)"
  else if code =? ClosePolicyViolation then " (policy violation)"
  else if code =? CloseMessageTooBig then " (message too big)"
  else if code =? CloseMandatoryExtension then " (mandatory extension missing)"
  else if code =? CloseInternalServerErr then " (internal server error)"
  else if code =? CloseTLSHandshake then " (TLS handshake error)"
  else "".

(** [err.Error()]. *)
Definition Error (err : goError) : string :=
  match err with
  | io_EOF => "EOF"
  | CloseError code text =>
      "websocket: close " ++ FormatInt code ++ closeCodeText code
      ++ (if String.eqb text "" then "" else ": " ++ text)
  | OtherError msg => msg
  end.

(** [errUnexpectedEOF], the library's own value. *)
Definition errUnexpectedEOF : goError :=
  CloseError CloseAbnormalClosure "unexpected EOF".

(** [func (c *Conn) read(n int)]: what it makes of the error of the
    buffered reader of the connection. *)
Definition Conn_read_error (err : goError) : goError :=
  match err with
  | io_EOF => errUnexpectedEOF
  | _ => err
  end.

(** What the reader meets where no further data frame comes: a close frame
    of the peer with a status code the library accepts and a reason, a
    close frame with no payload, the end of the byte stream (the buffered
    reader reports [io.EOF]), or another failure: of the read, or of the
    peer to keep to the protocol. *)
Inductive streamEnd : Type :=
| CloseFrame (code : Z) (text : string)
| BareCloseFrame
| EndOfStream
| ReadFails (msg : string).

(** The error [ReadMessage] then returns: the one [NextReader] has from
    [advanceFrame], which answers a close frame with a [*CloseError] of its
    code and reason and every failed read with what [read] made of it. *)
Definition ReadMessage_error (e : streamEnd) : goError :=
  match e with
  | CloseFrame code text => CloseError code text
  | BareCloseFrame => CloseError CloseNoStatusReceived ""
  | EndOfStream => Conn_read_error io_EOF
  | ReadFails msg => Conn_read_error (OtherError msg)
  end.
End Websocket.

(** *** The sessions the library gives the pull receiver *)

(** What a call of [connect] meets on a real network: the dial fails; or
    the frames [msgs] decode and then one comes that does not; or the
    frames [msgs] decode and then the reads end. *)
Inductive connection : Type :=
| Refused (err : error)
| Undecodable (msgs : list wsUpdateMessage) (err : error)
| Ended (msgs : list wsUpdateMessage) (ending : Websocket.streamEnd).

(** The branch of [connect] that the error of [ReadMessage] takes: the one
    of [errors.Is(err, io.EOF)], or the one that wraps the error. *)
Definition readEnding (err : Websocket.goError) : sessionEnd :=
  if Websocket.errors_Is_EOF err then EndEOF
  else EndReadError (Websocket.Error err).

Definition sessionOf (c : connection) : session :=
  match c with
  | Refused err => DialError err
  | Undecodable msgs err => Dialed msgs (EndDecodeError err)
  | Ended msgs ending =>
      Dialed msgs (readEnding (Websocket.ReadMessage_error ending))
  end.

(** ** The single-metric form of receive.go and export.go, and the first
    main.go *)

Definition float32 : Type := spec_float.

Module Float32.
Definition prec : Z := 24.
Definition emax : Z := 128.

Definition of_dyadic (m e : Z) : float32 :=
  binary_normalize prec emax m e false.

(** The conversion [float32(n)] of an integer. *)
Definition of_int (n : Z) : float32 := of_dyadic n 0.

Definition div (x y : float32) : float32 := SFdiv prec emax x y.
End Float32.

Module SingleMetric.

(** [type httpSenderMessage struct]; [getLatest] answers with a struct of
    the same two fields. *)
Record httpSenderMessage : Type := mkHttpSenderMessage {
  msg_HeartRate : Z;
  msg_Time : string
}.

Inductive event : Type :=
| Log (level : logLevel) (msg : string)
| ChanSend (ch : nat) (msg : httpSenderMessage)
| ConnWriteJSON (conn : nat) (msg : httpSenderMessage)
| OSCSend (addr : string) (args : list float32).

Inductive body : Type :=
| NoBody
| TextBody (text : string)
| JSONBody (latest : httpSenderMessage)
| MetricsBody (families : list metricFamily).

Record response : Type := mkResponse {
  StatusCode : Z;
  ContentType : option string;
  Body : body
}.

Definition http_Error (msg : string) (code : Z) : response :=
  mkResponse code (Some "text/plain; charset=utf-8")
             (TextBody (msg ++ newline)%string).

(** [type exporter interface { Send(heartRate int) error }].  The second
    argument is what [time.Now] returns during the call. *)
Class exporter (E : Type) : Type := {
  Send : E -> GoTime.time -> Z -> E * list event * option error
}.

Definition hdsDataPrefix : string := "heartRate:".

Section Receiver.
Context {E : Type} `{exporter E}.

Record hdsReceiver : Type := mkHdsReceiver { hds_exporters : list E }.

(** The loop [for _, s := range h.exporters { if err = s.Send(rate); err !=
    nil { slog.Error(...) } }]; [clock i] is the reading of the clock during
    the call of the exporter at position [first + i]. *)
Fixpoint sendToExporters (exporters : list E) (clock : nat -> GoTime.time)
    (first : nat) (rate : Z) : list E * list event :=
  match exporters with
  | [] => ([], [])
  | s :: rest =>
      let '(s', evs, err) := Send s (clock first) rate in
      let failed := match err with
                    | Some _ => [Log LevelError "Sending data"]
                    | None => []
                    end in
      let '(rest', evs') := sendToExporters rest clock (S first) rate in
      (s' :: rest', evs ++ failed ++ evs')
  end.

(** [func (h *hdsReceiver) dataHandler(w, r)] of the single-metric
    receive.go. *)
Definition hdsReceiver_dataHandler (h : hdsReceiver)
    (clock : nat -> GoTime.time) (r : decodedBody)
    : hdsReceiver * response * list event :=
  match r with
  | DecodeError err =>
      (h, http_Error err StatusBadRequest,
       [Log LevelError "error decoding request"])
  | Decoded data =>
      let received := Log LevelInfo "Received req" in
      if negb (HasPrefix (req_Data data) hdsDataPrefix) then
        (h, http_Error "Invalid data format" StatusBadRequest,
         [received; Log LevelError "Invalid data format"])
      else
        let rateStr := TrimPrefix (req_Data data) hdsDataPrefix in
        match GoStrconv.Atoi rateStr with
        | None =>
            (h, http_Error "Invalid data format" StatusBadRequest,
             [received; Log LevelError "Error parsing heartRate"])
        | Some rate =>
            let '(exporters, sent) :=
              sendToExporters (hds_exporters h) clock 0 rate in
            (mkHdsReceiver exporters, mkResponse StatusOK None NoBody,
             received :: sent)
        end
  end.
End Receiver.

(** *** export.go: the broadcast server *)

Record httpServerExporter : Type := mkHttpServerExporter {
  clients : list nat;
  heartRate : Z;
  receivedTime : GoTime.time
}.

Inductive subscriberState : Type :=
| Selecting
| Holding (msg : httpSenderMessage).

Record subscriber : Type := mkSubscriber {
  sub_conn : nat;
  sub_ch : nat;
  sub_state : subscriberState
}.

Record broadcastServer : Type := mkBroadcastServer {
  srv : httpServerExporter;
  subscribers : list subscriber;
  madeChans : nat
}.

Definition newHTTPServerExporter (port : Z) : broadcastServer :=
  mkBroadcastServer (mkHttpServerExporter [] 0 GoTime.zero) [] 0.

Definition selecting (ch : nat) (s : subscriber) : bool :=
  Nat.eqb (sub_ch s) ch &&
  match sub_state s with Selecting => true | Holding _ => false end.

Definition canReceive (subs : list subscriber) (ch : nat) : bool :=
  existsb (selecting ch) subs.

Fixpoint handOver (subs : list subscriber) (ch : nat)
    (msg : httpSenderMessage) : list subscriber :=
  match subs with
  | [] => []
  | s :: rest =>
      if selecting ch s
      then mkSubscriber (sub_conn s) (sub_ch s) (Holding msg) :: rest
      else s :: handOver rest ch msg
  end.

(** The loop [for _, ch := range h.clients { select { case ch <- msg:
    default: } }]. *)
Fixpoint sendToClients (chans : list nat) (subs : list subscriber)
    (msg : httpSenderMessage) : list subscriber * list event :=
  match chans with
  | [] => (subs, [])
  | ch :: rest =>
      if canReceive subs ch then
        let '(subs, evs) := sendToClients rest (handOver subs ch msg) msg in
        (subs, ChanSend ch msg :: evs)
      else
        sendToClients rest subs msg
  end.

Section Exporters.
(** [t.Format(time.RFC3339)]. *)
Variable Format_RFC3339 : GoTime.time -> string.
(** The outcome of [osc.Client.Send], which the network decides. *)
Variable osc_Client_Send : oscClient -> string -> list float32 -> option error.
(** [expfmt.Negotiate], from the Accept header of a scrape to the
    Content-Type that the handler of [promhttp.HandlerFor] answers with. *)
Variable expfmt_Negotiate : string -> string.

(** [func (h *httpServerExporter) Send(rate int) error]. *)
Definition httpServerExporter_Send (b : broadcastServer) (now : GoTime.time)
    (rate : Z) : broadcastServer * list event * option error :=
  let h := mkHttpServerExporter (clients (srv b)) rate now in
  let msg := mkHttpSenderMessage (heartRate h)
                                 (Format_RFC3339 (receivedTime h)) in
  let '(subs, evs) := sendToClients (clients h) (subscribers b) msg in
  (mkBroadcastServer h subs (madeChans b), evs, None).

(** [func (h *httpServerExporter) getLatest(w, _)].  Encoding a struct of
    an int and a string does not fail, so the branch of the error is left
    out. *)
Definition httpServerExporter_getLatest (h : httpServerExporter) : response :=
  if GoTime.IsZero (receivedTime h) then
    mkResponse StatusNotFound None NoBody
  else
    mkResponse StatusOK (Some "application/json")
      (JSONBody (mkHttpSenderMessage (heartRate h)
                                     (Format_RFC3339 (receivedTime h)))).

Definition Without (chans : list nat) (ch : nat) : list nat :=
  filter (fun c => negb (Nat.eqb c ch)) chans.

Definition deregister (b : broadcastServer) (ch : nat)
    : broadcastServer * list event :=
  (mkBroadcastServer
     (mkHttpServerExporter (Without (clients (srv b)) ch) (heartRate (srv b))
                           (receivedTime (srv b)))
     (filter (fun s => negb (Nat.eqb (sub_ch s) ch)) (subscribers b))
     (madeChans b),
   [Log LevelInfo "Closing WebSocket connection"]).

(** [func (h *httpServerExporter) connectWS(w, r)] from its start to the
    first [select] of its send loop, with the inputs of the multi-key
    form. *)
Definition httpServerExporter_connectWS (b : broadcastServer)
    (upgraded : option nat) (written : bool) : broadcastServer * list event :=
  match upgraded with
  | None => (b, [Log LevelError "Upgrading connection"])
  | Some conn =>
      let ch := madeChans b in
      let h := mkHttpServerExporter (clients (srv b) ++ [ch])
                 (heartRate (srv b)) (receivedTime (srv b)) in
      let b := mkBroadcastServer h (subscribers b) (S (madeChans b)) in
      let opened := Log LevelInfo "New WebSocket connection" in
      let park b :=
        mkBroadcastServer (srv b)
          (subscribers b ++ [mkSubscriber conn ch Selecting]) (madeChans b) in
      if negb (GoTime.IsZero (receivedTime h)) then
        let msg := mkHttpSenderMessage (heartRate h)
                                       (Format_RFC3339 (receivedTime h)) in
        if written then
          (park b, [opened; ConnWriteJSON conn msg])
        else
          let '(b, closed) := deregister b ch in
          (b, [opened; ConnWriteJSON conn msg;
               Log LevelError "Writing message"] ++ closed)
      else
        (park b, [opened])
  end.

(** *** export.go: the signal sender *)

Record oscExporter : Type := mkOscExporter {
  client : oscClient;
  heartRateMax : float32;
  addrName : string
}.

Definition newOSCExporter (sendIP : string) (sendPort : Z) (addrName : string)
    : oscExporter :=
  mkOscExporter (mkOscClient sendIP sendPort) (Float32.of_int 256) addrName.

(** [func (o *oscExporter) Send(rate int) error]. *)
Definition oscExporter_Send (o : oscExporter) (rate : Z)
    : oscExporter * list event * option error :=
  let floatRate := Float32.div (Float32.of_int rate) (heartRateMax o) in
  (o, [OSCSend (addrName o) [floatRate]],
   osc_Client_Send (client o) (addrName o) [floatRate]).

(** *** export.go: the metrics endpoint *)

Record prometheusExporter : Type := mkPrometheusExporter {
  (** the value the gauge [rateGauge] holds *)
  rateGauge : float64;
  lastReceived : GoTime.time
}.

Definition newPrometheusExporter (port : Z) : prometheusExporter :=
  mkPrometheusExporter (S754_zero false) GoTime.zero.

(** [func (p *prometheusExporter) Send(rate int) error]. *)
Definition prometheusExporter_Send (p : prometheusExporter)
    (now : GoTime.time) (rate : Z)
    : prometheusExporter * list event * option error :=
  (mkPrometheusExporter (Float64.of_int rate) now, [], None).

(** [func (p *prometheusExporter) ServeHTTP(w, r)] on a request whose
    Accept header is [accept]; the registry holds the one gauge.  As in the
    multi-key form the second branch is the answer of the handler of
    [promhttp.HandlerFor], with the Content-Type the library negotiates. *)
Definition prometheusExporter_ServeHTTP (p : prometheusExporter)
    (accept : string) (now : GoTime.time) : response :=
  if GoTime.IsZero (lastReceived p)
     || (freshnessWindow <? GoTime.Since now (lastReceived p)) then
    mkResponse StatusOK (Some "text/plain; version=0.0.4; charset=utf-8") NoBody
  else
    mkResponse StatusOK (Some (expfmt_Negotiate accept))
      (MetricsBody
         [mkMetricFamily "heart_rate" "Current heart rate in beats per minute"
            Gauge (rateGauge p)]).

(** *** The first main.go *)

(** [func sendOSCData(rate int) error], with the flag [oscAddrName]. *)
Definition sendOSCData (c : oscClient) (oscAddrName : string)
    (rate : Z) : list event * option error :=
  let floatRate := Float32.div (Float32.of_int rate) (Float32.of_int 256) in
  ([OSCSend oscAddrName [floatRate]],
   osc_Client_Send c oscAddrName [floatRate]).

(** [func dataHandler(w, r)] of the first main.go. *)
Definition main_dataHandler (c : oscClient) (oscAddrName : string)
    (r : decodedBody) : response * list event :=
  match r with
  | DecodeError err =>
      (http_Error err StatusBadRequest,
       [Log LevelError "error decoding request"])
  | Decoded data =>
      let received := Log LevelInfo "Received req" in
      if negb (HasPrefix (req_Data data) hdsDataPrefix) then
        (http_Error "Invalid data format" StatusBadRequest,
         [received; Log LevelError "Invalid data format"])
      else
        let rateStr := TrimPrefix (req_Data data) hdsDataPrefix in
        match GoStrconv.Atoi rateStr with
        | None =>
            (http_Error "Invalid data format" StatusBadRequest,
             [received; Log LevelError "Error parsing heartRate"])
        | Some rate =>
            let '(sent, err) := sendOSCData c oscAddrName rate in
            let failed := match err with
                          | Some _ => [Log LevelError "Error sending osc data"]
                          | None => []
                          end in
            (mkResponse StatusOK None NoBody, received :: sent ++ failed)
        end
  end.

(** The broadcast server and the metrics endpoint after the [Send] calls of
    [sends], oldest first, each with the reading of the clock. *)
Definition server_sends (b : broadcastServer) (sends : list (GoTime.time * Z))
    : broadcastServer :=
  fold_left (fun b s => fst (fst (httpServerExporter_Send b (fst s) (snd s))))
            sends b.

Definition prometheus_sends (p : prometheusExporter)
    (sends : list (GoTime.time * Z)) : prometheusExporter :=
  fold_left (fun p s => fst (fst (prometheusExporter_Send p (fst s) (snd s))))
            sends p.
End Exporters.

#[export] Instance prometheusExporter_exporter : exporter prometheusExporter :=
  {| Send := prometheusExporter_Send |}.
End SingleMetric.

(** * Properties *)

(** ** strings.Split *)

Module SplitFacts.
Import GoStrings.

Lemma Split_not_nil (s : string) (sep : ascii) : Split s sep <> [].
Proof.
  destruct s as [|a rest]; simpl; [discriminate|].
  destruct (Ascii.eqb a sep); [discriminate|].
  destruct (Split rest sep); discriminate.
Qed.

(** The result has one more element than there are separators. *)
Lemma Split_length (s : string) (sep : ascii) :
  List.length (Split s sep) = S (Count s sep).
Proof.
  induction s as [|a rest IH]; simpl; [reflexivity|].
  destruct (Ascii.eqb a sep); simpl; [now rewrite IH|].
  destruct (Split rest sep) as [|piece pieces] eqn:Hs; simpl in *.
  - now destruct (Split_not_nil rest sep).
  - exact IH.
Qed.

Lemma Count_app (a b : string) (sep : ascii) :
  Count (a ++ b)%string sep = (Count a sep + Count b sep)%nat.
Proof.
  induction a as [|c a IH]; simpl; [reflexivity|].
  destruct (Ascii.eqb c sep); simpl; now rewrite IH.
Qed.

Lemma Split_no_sep (s : string) (sep : ascii) :
  Count s sep = 0%nat -> Split s sep = [s].
Proof.
  induction s as [|a rest IH]; simpl; [reflexivity|].
  destruct (Ascii.eqb a sep); [discriminate|].
  intros Hc. now rewrite (IH Hc).
Qed.

Lemma Split_cut (a b : string) (sep : ascii) :
  Count a sep = 0%nat ->
  Split (a ++ String sep b)%string sep = a :: Split b sep.
Proof.
  induction a as [|c a IH]; simpl.
  - intros _. now rewrite Ascii.eqb_refl.
  - destruct (Ascii.eqb c sep); [discriminate|].
    intros Hc. now rewrite (IH Hc).
Qed.

(** A string with exactly one separator splits into what stands before
    it and what stands after it. *)
Lemma Split_one (a b : string) (sep : ascii) :
  Count (a ++ String sep b)%string sep = 1%nat ->
  Split (a ++ String sep b)%string sep = [a; b].
Proof.
  rewrite Count_app. simpl. rewrite Ascii.eqb_refl. intros Hc.
  rewrite Split_cut by lia. rewrite Split_no_sep by lia. reflexivity.
Qed.
End SplitFacts.

(** ** The health record *)

(** Settles that a given key is none of the cases of the [switch]. *)
Ltac key_not_recognized :=
  let Hcase := fresh "Hcase" in
  simpl; intros [Hcase|[Hcase|[Hcase|[Hcase|[Hcase|[]]]]]]; discriminate Hcase.

Section HealthRecord.
Variables (d : healthData) (now : GoTime.time) (value : float64).

Lemma healthData_Update_Time (key : string) :
  Time (fst (healthData_Update d now key value)) = now.
Proof.
  unfold healthData_Update.
  repeat match goal with |- context [if ?b then _ else _] => destruct b end;
    reflexivity.
Qed.

Lemma healthData_Update_unknown (key : string) :
  ~ In key recognizedKeys ->
  healthData_Update d now key value
  = (set_Time now d, [Log LevelWarn "Unknown key"]).
Proof.
  intros Hnot. unfold healthData_Update.
  repeat match goal with
         | |- context [String.eqb key ?k] =>
             destruct (String.eqb_spec key k) as [->|_];
             [exfalso; apply Hnot; simpl; tauto|]
         end.
  reflexivity.
Qed.
End HealthRecord.

(** C9, as amended.  For an update event whose key is none of the five
    recognized keys, [healthData.Update] leaves the five metric fields of the
    record as they were, sets the time field to the current time and logs one
    warning. *)
Theorem unknown_key_sets_only_Time
    (d : healthData) (now : GoTime.time) (key : string) (value : float64) :
  ~ In key recognizedKeys ->
  healthData_Update d now key value
  = (mkHealthData now (HeartRate d) (StepCount d) (DistanceTraveled d)
                  (Speed d) (Calories d),
     [Log LevelWarn "Unknown key"]).
Proof. intros Hnot. now rewrite healthData_Update_unknown. Qed.

Lemma unknown_key_sets_only_Time_witness :
  healthData_Update healthData_zero 1700000000 "bloodOxygen" (Float64.of_int 97)
  = (record_at 1700000000 0,
     [Log LevelWarn "Unknown key"]).
Proof.
  apply (unknown_key_sets_only_Time healthData_zero 1700000000
           "bloodOxygen" (Float64.of_int 97)).
  key_not_recognized.
Defined.

(** C9 as the specification words it fails: an event with an unrecognized
    key changes the time field of the record. *)
Lemma unknown_key_changes_Time :
  ~ In "bloodOxygen" recognizedKeys /\
  fst (healthData_Update healthData_zero 1700000000 "bloodOxygen"
         (Float64.of_int 97))
  <> healthData_zero.
Proof.
  split.
  - key_not_recognized.
  - vm_compute. discriminate.
Qed.

(** ** The push receiver *)

Section PushReceiver.
Context {E : Type} `{exporter E}.
Variable ParseFloat : string -> option float64.

(** The fan-out loop calls [Update] on every exporter, in the order of the
    list, with the same record and key. *)
Lemma notifyExporters_states (exporters : list E) (data : healthData)
    (key : string) :
  fst (notifyExporters exporters data key)
  = map (fun s => fst (fst (Update s data key))) exporters.
Proof.
  induction exporters as [|s rest IH]; simpl; [reflexivity|].
  destruct (Update s data key) as [[s' evs] err].
  destruct (notifyExporters rest data key) as [rest' evs'].
  simpl in *. now rewrite IH.
Qed.

Lemma notifyExporters_events (exporters : list E) (data : healthData)
    (key : string) :
  snd (notifyExporters exporters data key)
  = flat_map (notified data key) exporters.
Proof.
  induction exporters as [|s rest IH]; simpl; [reflexivity|].
  unfold notified at 1.
  destruct (Update s data key) as [[s' evs] err].
  destruct (notifyExporters rest data key) as [rest' evs'].
  simpl in *. rewrite IH. now rewrite <- app_assoc.
Qed.

(** The handler on a payload with one separator and a numeric value. *)
Lemma dataHandler_accepts (h : hdsReceiver) (now : GoTime.time)
    (key valueStr : string) (value : float64) :
  GoStrings.Count (key ++ ":" ++ valueStr)%string ":" = 1%nat ->
  ParseFloat valueStr = Some value ->
  hdsReceiver_dataHandler ParseFloat h now
    (putData (key ++ ":" ++ valueStr)%string)
  = let '(d, warned) := healthData_Update (hds_data h) now key value in
    let '(exporters, sent) := notifyExporters (hds_exporters h) d key in
    (mkHdsReceiver exporters d, mkResponse StatusOK None NoBody,
     Log LevelInfo "Received hds req" :: warned ++ sent).
Proof.
  intros Hone Hnum. unfold hdsReceiver_dataHandler, putData. simpl req_Data.
  change (key ++ ":" ++ valueStr)%string
    with (key ++ String ":" valueStr)%string in *.
  rewrite (SplitFacts.Split_one _ _ _ Hone). simpl. now rewrite Hnum.
Qed.

(** The handler on a payload that does not have exactly one separator. *)
Lemma dataHandler_rejects_format (h : hdsReceiver) (now : GoTime.time)
    (data : string) :
  GoStrings.Count data ":" <> 1%nat ->
  hdsReceiver_dataHandler ParseFloat h now (putData data)
  = (h, http_Error "Invalid data format" StatusBadRequest,
     [Log LevelInfo "Received hds req"; Log LevelError "Invalid data format"]).
Proof.
  intros Hcount. unfold hdsReceiver_dataHandler, putData. simpl req_Data.
  rewrite SplitFacts.Split_length.
  destruct (Nat.eqb_spec (S (GoStrings.Count data ":")) 2) as [Heq|_];
    [lia | reflexivity].
Qed.

(** The handler on a payload whose value part is not numeric. *)
Lemma dataHandler_rejects_value (h : hdsReceiver) (now : GoTime.time)
    (key valueStr : string) :
  GoStrings.Count (key ++ ":" ++ valueStr)%string ":" = 1%nat ->
  ParseFloat valueStr = None ->
  hdsReceiver_dataHandler ParseFloat h now
    (putData (key ++ ":" ++ valueStr)%string)
  = (h, http_Error "Invalid value format" StatusBadRequest,
     [Log LevelInfo "Received hds req"; Log LevelError "Error parsing value"]).
Proof.
  intros Hone Hnum. unfold hdsReceiver_dataHandler, putData. simpl req_Data.
  change (key ++ ":" ++ valueStr)%string
    with (key ++ String ":" valueStr)%string in *.
  rewrite (SplitFacts.Split_one _ _ _ Hone). simpl. now rewrite Hnum.
Qed.

(** C1.  For a push payload [key:value] with one separator, a recognized
    key and a value that parses as a number, the handler answers 200, sets
    the time of the record to the current time and the field named by the
    key to the parsed value (truncated to an integer for the integer
    fields), and leaves every other field as it was. *)
Theorem push_sets_the_named_field (h : hdsReceiver) (now : GoTime.time)
    (key valueStr : string) (value : float64) :
  In key recognizedKeys ->
  GoStrings.Count (key ++ ":" ++ valueStr)%string ":" = 1%nat ->
  ParseFloat valueStr = Some value ->
  let '(h', resp, _) :=
    hdsReceiver_dataHandler ParseFloat h now
      (putData (key ++ ":" ++ valueStr)%string) in
  let d := hds_data h in
  StatusCode resp = 200 /\
  Time (hds_data h') = now /\
  (key = "heartRate" ->
     hds_data h' = mkHealthData now (Float64.to_int value) (StepCount d)
                     (DistanceTraveled d) (Speed d) (Calories d)) /\
  (key = "stepCount" ->
     hds_data h' = mkHealthData now (HeartRate d) (Float64.to_int value)
                     (DistanceTraveled d) (Speed d) (Calories d)) /\
  (key = "distanceTraveled" ->
     hds_data h' = mkHealthData now (HeartRate d) (StepCount d)
                     value (Speed d) (Calories d)) /\
  (key = "speed" ->
     hds_data h' = mkHealthData now (HeartRate d) (StepCount d)
                     (DistanceTraveled d) value (Calories d)) /\
  (key = "calories" ->
     hds_data h' = mkHealthData now (HeartRate d) (StepCount d)
                     (DistanceTraveled d) (Speed d) (Float64.to_int value)).
Proof.
  intros Hkey Hone Hnum.
  rewrite (dataHandler_accepts h now key valueStr value Hone Hnum).
  destruct (healthData_Update (hds_data h) now key value)
    as [d' warned] eqn:Hup.
  destruct (notifyExporters (hds_exporters h) d' key) as [exporters sent].
  simpl hds_data.
  assert (Hd : d' = fst (healthData_Update (hds_data h) now key value))
    by now rewrite Hup.
  split; [reflexivity|].
  split; [rewrite Hd; apply healthData_Update_Time|].
  simpl in Hkey.
  repeat split; intros ->; rewrite Hd; reflexivity.
Qed.


(** C10.  For a push payload with one separator and a numeric value whose
    key is none of the five recognized keys, the handler answers 200, sets
    the time of the record to the current time, and calls [Update] on every
    registered exporter, in the order of registration, with the record so
    updated and that key. *)
Theorem push_unknown_key_is_fanned_out (h : hdsReceiver) (now : GoTime.time)
    (key valueStr : string) (value : float64) :
  ~ In key recognizedKeys ->
  GoStrings.Count (key ++ ":" ++ valueStr)%string ":" = 1%nat ->
  ParseFloat valueStr = Some value ->
  let '(h', resp, evs) :=
    hdsReceiver_dataHandler ParseFloat h now
      (putData (key ++ ":" ++ valueStr)%string) in
  let d := hds_data h in
  let d' := mkHealthData now (HeartRate d) (StepCount d) (DistanceTraveled d)
              (Speed d) (Calories d) in
  StatusCode resp = 200 /\
  Time (hds_data h') = now /\
  hds_data h' = d' /\
  hds_exporters h'
  = map (fun s => fst (fst (Update s d' key))) (hds_exporters h) /\
  evs = [Log LevelInfo "Received hds req"; Log LevelWarn "Unknown key"]
        ++ flat_map (notified d' key) (hds_exporters h).
Proof.
  intros Hkey Hone Hnum.
  rewrite (dataHandler_accepts h now key valueStr value Hone Hnum).
  rewrite (healthData_Update_unknown _ _ _ _ Hkey).
  pose proof (notifyExporters_states (hds_exporters h)
                (set_Time now (hds_data h)) key) as Hst.
  pose proof (notifyExporters_events (hds_exporters h)
                (set_Time now (hds_data h)) key) as Hev.
  destruct (notifyExporters (hds_exporters h) (set_Time now (hds_data h)) key)
    as [exporters sent].
  simpl in *. subst. repeat split.
Qed.
End PushReceiver.

Lemma push_sets_the_named_field_witness :
  let '(h', resp, _) :=
    hdsReceiver_dataHandler ParseFloat_digits (newHDSReceiver [mkRecorder []])
      1700000000 (putData "heartRate:80") in
  StatusCode resp = 200 /\
  hds_data h'
  = mkHealthData 1700000000 80 0 (S754_zero false) (S754_zero false) 0.
Proof.
  pose proof (push_sets_the_named_field ParseFloat_digits
                (newHDSReceiver [mkRecorder []]) 1700000000 "heartRate" "80"
                (Float64.of_int 80) (or_introl eq_refl) eq_refl eq_refl)
    as Hpush.
  vm_compute in Hpush |- *.
  destruct Hpush as (Hstatus & _ & HheartRate & _).
  split; [exact Hstatus | exact (HheartRate eq_refl)].
Defined.


Lemma push_unknown_key_is_fanned_out_witness :
  let h := newHDSReceiver [mkRecorder []; mkRecorder []] in
  let '(h', resp, evs) :=
    hdsReceiver_dataHandler ParseFloat_digits h 1700000000
      (putData "bloodOxygen:97") in
  let d' := record_at 1700000000 0 in
  StatusCode resp = 200 /\
  Time (hds_data h') = 1700000000 /\
  hds_data h' = d' /\
  hds_exporters h'
  = map (fun s => fst (fst (Update s d' "bloodOxygen"))) (hds_exporters h) /\
  evs = [Log LevelInfo "Received hds req"; Log LevelWarn "Unknown key"]
        ++ flat_map (notified d' "bloodOxygen") (hds_exporters h).
Proof.
  apply (push_unknown_key_is_fanned_out ParseFloat_digits
           (newHDSReceiver [mkRecorder []; mkRecorder []]) 1700000000
           "bloodOxygen" "97" (Float64.of_int 97)).
  - key_not_recognized.
  - reflexivity.
  - reflexivity.
Defined.

(** The two recorders of the run above have each received the one call. *)
Example push_unknown_key_recorded :
  map received
      (hds_exporters
         (fst (fst (hdsReceiver_dataHandler ParseFloat_digits
                      (newHDSReceiver [mkRecorder []; mkRecorder []])
                      1700000000 (putData "bloodOxygen:97")))))
  = let d' := record_at 1700000000 0 in
    [[(d', "bloodOxygen")]; [(d', "bloodOxygen")]].
Proof. reflexivity. Qed.

(** ** The pull receiver *)

Module Int64Facts.
Lemma wrap_in_range (z : Z) :
  Int64.min_int <= z <= Int64.max_int -> Int64.wrap z = z.
Proof.
  unfold Int64.min_int, Int64.max_int, Int64.wrap.
  change (2 ^ 63) with 9223372036854775808.
  change (2 ^ 64) with 18446744073709551616.
  intros Hz. rewrite Z.mod_small by lia. lia.
Qed.

Lemma min_is_Zmin (a b : Z) : Int64.min a b = Z.min a b.
Proof. unfold Int64.min. destruct (Z.ltb_spec a b); lia. Qed.
End Int64Facts.

Section PullReceiver.
Context {E : Type} `{exporter E}.

Lemma connect_keeps_backoff (h : wsPullReceiver) (s : session) :
  nextBackoff (fst (fst (wsPullReceiver_connect h s))) = nextBackoff h.
Proof.
  destruct s as [err|msgs ending]; simpl; [reflexivity|].
  destruct (receiveMessages (ws_exporters h) msgs) as [exporters evs].
  destruct ending; reflexivity.
Qed.

Lemma connect_error_iff (h : wsPullReceiver) (s : session) :
  snd (wsPullReceiver_connect h s) = None <-> endsCleanly s = true.
Proof.
  destruct s as [err|msgs ending]; simpl; [split; discriminate|].
  destruct (receiveMessages (ws_exporters h) msgs) as [exporters evs].
  destruct ending; simpl; split; congruence.
Qed.

(** One turn of the loop, read off the kind of session it met. *)
Lemma Start_turn_backoff (h : wsPullReceiver) (s : session) :
  backoffBounded h ->
  let '(h', _, slept) := wsPullReceiver_Start_turn h s in
  if endsCleanly s
  then slept = wsPullFirstWait /\ nextBackoff h' = wsPullFirstWait
  else slept = nextBackoff h /\
       nextBackoff h' = Z.min (2 * nextBackoff h) wsPullMaxBackoff.
Proof.
  intros [Hlo Hhi]. unfold wsPullReceiver_Start_turn.
  pose proof (connect_keeps_backoff h s) as Hkeep.
  pose proof (connect_error_iff h s) as Herr.
  destruct (wsPullReceiver_connect h s) as [[h1 evs] err].
  cbn [fst snd] in *.
  destruct err as [e|].
  - destruct (endsCleanly s).
    + destruct Herr as [_ Hc]. discriminate (Hc eq_refl).
    + cbn [nextBackoff]. rewrite Hkeep. split; [reflexivity|].
      rewrite Int64Facts.min_is_Zmin. unfold Int64.mul.
      rewrite Int64Facts.wrap_in_range; [f_equal; lia|].
      unfold wsPullFirstWait, wsPullMaxBackoff, GoTime.Minute, GoTime.Second,
        Int64.min_int, Int64.max_int in *.
      change (2 ^ 63) with 9223372036854775808. lia.
  - destruct (endsCleanly s).
    + cbn [nextBackoff]. split; reflexivity.
    + destruct Herr as [Hc _]. discriminate (Hc eq_refl).
Qed.

Lemma Start_turn_bounded (h : wsPullReceiver) (s : session) :
  backoffBounded h ->
  backoffBounded (fst (fst (wsPullReceiver_Start_turn h s))) /\
  snd (wsPullReceiver_Start_turn h s) <= wsPullMaxBackoff.
Proof.
  intros Hb. pose proof (Start_turn_backoff h s Hb) as Hturn.
  destruct (wsPullReceiver_Start_turn h s) as [[h' evs] slept]. simpl.
  unfold backoffBounded in *.
  unfold wsPullFirstWait, wsPullMaxBackoff, GoTime.Minute, GoTime.Second in *.
  destruct (endsCleanly s); destruct Hturn as [-> ->]; lia.
Qed.

Lemma Start_bounded (sessions : list session) :
  forall h : wsPullReceiver,
    backoffBounded h ->
    backoffBounded (fst (wsPullReceiver_Start h sessions)) /\
    Forall (fun turn => snd turn <= wsPullMaxBackoff)
           (snd (wsPullReceiver_Start h sessions)).
Proof.
  induction sessions as [|s rest IH]; intros h Hb; simpl.
  - split; [exact Hb | constructor].
  - destruct (Start_turn_bounded h s Hb) as [Hb' Hslept].
    destruct (wsPullReceiver_Start_turn h s) as [[h' evs] slept].
    simpl in Hb', Hslept.
    destruct (IH h' Hb') as [Hb'' Hall].
    destruct (wsPullReceiver_Start h' rest) as [h'' turns]. simpl in *.
    split; [exact Hb''|]. constructor; [exact Hslept | exact Hall].
Qed.

Lemma new_bounded (exporters : list E) (addr : string) :
  backoffBounded (newWSPullReceiver exporters addr).
Proof.
  unfold backoffBounded, newWSPullReceiver, wsPullFirstWait, wsPullMaxBackoff,
    GoTime.Minute, GoTime.Second. simpl. lia.
Qed.

(** The loop as it is written, read off the session a turn meets: after a
    session that ended in a dial, read or decode error the turn sleeps for
    the backoff it has and then doubles it, capped at ten minutes; after a
    session for which [connect] returned nil it resets the backoff to one
    second and sleeps for that.  No sleep is longer than ten minutes. *)
Lemma Start_turn_by_session (exporters : list E) (addr : string)
    (sessions : list session) (s : session) :
  nextBackoff (newWSPullReceiver exporters addr) = GoTime.Second /\
  (let h := fst (wsPullReceiver_Start (newWSPullReceiver exporters addr)
                   sessions) in
   let '(h', _, slept) := wsPullReceiver_Start_turn h s in
   (if endsCleanly s
    then slept = GoTime.Second /\ nextBackoff h' = GoTime.Second
    else slept = nextBackoff h /\
         nextBackoff h' = Z.min (2 * nextBackoff h) (10 * GoTime.Minute)) /\
   slept <= 10 * GoTime.Minute) /\
  Forall (fun turn => snd turn <= 10 * GoTime.Minute)
         (snd (wsPullReceiver_Start (newWSPullReceiver exporters addr)
                 sessions)).
Proof.
  split; [reflexivity|].
  destruct (Start_bounded sessions _ (new_bounded exporters addr)) as [Hb _].
  split.
  - intros h. fold h in Hb.
    pose proof (Start_turn_backoff h s Hb) as Hturn.
    pose proof (Start_turn_bounded h s Hb) as [_ Hslept].
    destruct (wsPullReceiver_Start_turn h s) as [[h' evs] slept].
    split; [exact Hturn | exact Hslept].
  - apply (Start_bounded sessions _ (new_bounded exporters addr)).
Qed.

(** No session that the library gives [connect] ends with [io.EOF]: a close
    frame of the peer is a [*CloseError], and so is the end of the byte
    stream. *)
Lemma sessionOf_never_clean (c : connection) :
  endsCleanly (sessionOf c) = false.
Proof.
  destruct c as [err|msgs err|msgs ending]; [reflexivity | reflexivity |].
  destruct ending; reflexivity.
Qed.

Lemma doubled_wait (n : nat) (b : Z) :
  wsPullFirstWait <= b <= wsPullMaxBackoff ->
  Z.min (2 ^ Z.of_nat n * Z.min (2 * b) wsPullMaxBackoff) wsPullMaxBackoff
  = Z.min (2 ^ Z.of_nat (S n) * b) wsPullMaxBackoff.
Proof.
  intros [Hlo Hhi]. rewrite Nat2Z.inj_succ, Z.pow_succ_r by lia.
  assert (Hpow : 1 <= 2 ^ Z.of_nat n)
    by (apply Z.pow_le_mono_r with (b := 0); lia).
  unfold wsPullFirstWait, wsPullMaxBackoff, GoTime.Minute, GoTime.Second in *.
  nia.
Qed.

(** A run of sessions none of which ends cleanly: the waits double from the
    backoff the run starts with, up to the ceiling. *)
Lemma waits_of_failing_run (sessions : list session) :
  forall h : wsPullReceiver,
    backoffBounded h ->
    forallb (fun s => negb (endsCleanly s)) sessions = true ->
    map snd (snd (wsPullReceiver_Start h sessions))
    = map (fun n => Z.min (2 ^ Z.of_nat n * nextBackoff h) wsPullMaxBackoff)
          (seq 0 (List.length sessions)) /\
    nextBackoff (fst (wsPullReceiver_Start h sessions))
    = Z.min (2 ^ Z.of_nat (List.length sessions) * nextBackoff h)
            wsPullMaxBackoff.
Proof.
  induction sessions as [|s rest IH]; intros h Hb Hall.
  - cbn [wsPullReceiver_Start fst snd List.length seq map].
    change (Z.of_nat 0) with 0. rewrite Z.pow_0_r.
    destruct Hb as [_ Hhi]. split; [reflexivity | lia].
  - simpl in Hall. apply andb_true_iff in Hall as [Hs Hrest].
    apply negb_true_iff in Hs.
    pose proof (Start_turn_backoff h s Hb) as Hturn.
    destruct (Start_turn_bounded h s Hb) as [Hb' _].
    cbn [wsPullReceiver_Start].
    destruct (wsPullReceiver_Start_turn h s) as [[h' evs] slept].
    cbn [fst snd] in Hb'. destruct (IH h' Hb' Hrest) as [IHwaits IHnext].
    destruct (wsPullReceiver_Start h' rest) as [h'' turns].
    cbn [fst snd] in *. rewrite Hs in Hturn. destruct Hturn as [-> Hnext].
    rewrite Hnext in IHwaits, IHnext.
    cbn [List.length seq map]. split.
    + f_equal.
      * change (Z.of_nat 0) with 0. rewrite Z.pow_0_r.
        destruct Hb as [_ Hhi]. cbn [snd]. lia.
      * rewrite IHwaits, <- seq_shift, map_map.
        apply map_ext. intros n. now apply doubled_wait.
    + rewrite IHnext. now apply doubled_wait.
Qed.

(** C3.  The backoff of a new pull receiver is one second and each turn of
    the loop sleeps for the backoff it has, capped at ten minutes; but the
    backoff is never reset.  In whatever way the sessions of a run end on
    the network, a close frame of the peer with the code of normal closure
    included, [connect] returns an error: the library reports no close as
    [io.EOF], so the test of [connect] for it never holds.  A session the
    peer closed normally is logged as the error websocket: close 1000
    (normal).  So the n-th wait of every run is 2^n seconds capped at ten
    minutes, and after the first session the backoff is never again one
    second. *)
Theorem graceful_close_never_resets_backoff (exporters : list E)
    (addr : string) (conns : list connection) :
  let h0 := newWSPullReceiver exporters addr in
  let run := wsPullReceiver_Start h0 (map sessionOf conns) in
  nextBackoff h0 = GoTime.Second /\
  (forall (h : wsPullReceiver) (c : connection),
     snd (wsPullReceiver_connect h (sessionOf c)) <> None) /\
  (forall (h : wsPullReceiver) (msgs : list wsUpdateMessage),
     snd (wsPullReceiver_connect h
            (sessionOf (Ended msgs (Websocket.CloseFrame 1000 ""))))
     = Some "reading websocket: websocket: close 1000 (normal)") /\
  map snd (snd run)
  = map (fun n => Z.min (2 ^ Z.of_nat n * GoTime.Second) (10 * GoTime.Minute))
        (seq 0 (List.length conns)) /\
  nextBackoff (fst run)
  = Z.min (2 ^ Z.of_nat (List.length conns) * GoTime.Second)
          (10 * GoTime.Minute) /\
  (conns <> [] -> nextBackoff (fst run) <> GoTime.Second).
Proof.
  intros h0 run.
  assert (Hall : forallb (fun s => negb (endsCleanly s)) (map sessionOf conns)
                 = true).
  { apply forallb_forall. intros s Hin. apply in_map_iff in Hin.
    destruct Hin as (c & <- & _). now rewrite sessionOf_never_clean. }
  destruct (waits_of_failing_run (map sessionOf conns) h0
              (new_bounded exporters addr) Hall) as [Hwaits Hnext].
  fold run in Hwaits, Hnext. rewrite length_map in Hwaits, Hnext.
  split; [reflexivity|]. split.
  { intros h c Hnil. apply connect_error_iff in Hnil.
    rewrite sessionOf_never_clean in Hnil. discriminate Hnil. }
  split.
  { intros h msgs. cbn [sessionOf wsPullReceiver_connect].
    destruct (receiveMessages (ws_exporters h) msgs) as [exporters' evs].
    reflexivity. }
  split; [exact Hwaits|]. split; [exact Hnext|].
  intros Hne. rewrite Hnext.
  destruct conns as [|c rest]; [contradiction|].
  cbn [List.length]. rewrite Nat2Z.inj_succ, Z.pow_succ_r by lia.
  assert (Hpow : 1 <= 2 ^ Z.of_nat (List.length rest))
    by (apply Z.pow_le_mono_r with (b := 0); lia).
  subst h0. cbn [nextBackoff newWSPullReceiver].
  unfold wsPullFirstWait, wsPullMaxBackoff, GoTime.Minute, GoTime.Second.
  nia.
Qed.
End PullReceiver.

(** The waits of two runs.  Three sessions in a row that the peer ends
    with a close frame of normal closure wait one, two and four seconds, as
    three refused dials do; twelve failures in a row reach the ceiling of
    ten minutes and stay there. *)
Example backoff_run :
  map snd
      (snd (wsPullReceiver_Start (newWSPullReceiver [mkRecorder []] "ws://h/ws")
              (map sessionOf
                 (repeat (Ended [] (Websocket.CloseFrame 1000 "")) 3))))
  = [1000000000; 2000000000; 4000000000]
  /\ map snd
         (snd (wsPullReceiver_Start
                 (newWSPullReceiver [mkRecorder []] "ws://h/ws")
                 (repeat (DialError "refused") 12)))
     = [1000000000; 2000000000; 4000000000; 8000000000; 16000000000;
        32000000000; 64000000000; 128000000000; 256000000000; 512000000000;
        600000000000; 600000000000].
Proof. split; vm_compute; reflexivity. Qed.

(** What [connect] reports for the ways a connection can end: the close
    frames of normal closure and of going away, a close frame with no
    payload, and the end of the byte stream with no close frame. *)
Example connect_errors_by_ending :
  map (fun ending =>
         snd (wsPullReceiver_connect
                (newWSPullReceiver [mkRecorder []] "ws://h/ws")
                (sessionOf (Ended [] ending))))
      [Websocket.CloseFrame 1000 ""; Websocket.CloseFrame 1001 "bye";
       Websocket.BareCloseFrame; Websocket.EndOfStream]
  = [Some "reading websocket: websocket: close 1000 (normal)";
     Some "reading websocket: websocket: close 1001 (going away): bye";
     Some "reading websocket: websocket: close 1005 (no status)";
     Some ("reading websocket: websocket: close 1006 (abnormal closure): "
           ++ "unexpected EOF")%string].
Proof. vm_compute. reflexivity. Qed.

(** ** The broadcast server *)

Section BroadcastSend.
Variable msg : wsUpdateMessage.

Lemma handOver_channels (subs : list subscriber) (ch : nat) :
  map sub_ch (handOver subs ch msg) = map sub_ch subs.
Proof.
  induction subs as [|s rest IH]; simpl; [reflexivity|].
  destruct (selecting ch s); simpl; [reflexivity | now rewrite IH].
Qed.

(** A hand-over on one channel does not change what another can take. *)
Lemma handOver_other (subs : list subscriber) (ch ch' : nat) :
  ch' <> ch ->
  canReceive (handOver subs ch msg) ch' = canReceive subs ch'.
Proof.
  intros Hne. unfold canReceive.
  induction subs as [|s rest IH]; simpl; [reflexivity|].
  destruct (selecting ch s) eqn:Hsel; simpl; [|now rewrite IH].
  f_equal. unfold selecting in *. simpl.
  apply andb_true_iff in Hsel as [Hch _]. apply Nat.eqb_eq in Hch.
  rewrite Hch.
  destruct (Nat.eqb_spec ch ch') as [Heq|_]; [congruence | reflexivity].
Qed.

(** The sends that proceed are those to the channels with a goroutine
    blocked on them, once each, in the order of the registry. *)
Lemma sendToClients_events (chans : list nat) :
  forall subs : list subscriber,
    NoDup chans ->
    snd (sendToClients chans subs msg)
    = map (fun ch => ChanSend ch msg) (filter (canReceive subs) chans).
Proof.
  induction chans as [|ch rest IH]; intros subs Hnd; simpl; [reflexivity|].
  inversion Hnd as [|? ? Hnotin Hrest]; subst.
  destruct (canReceive subs ch) eqn:Hcan.
  - specialize (IH (handOver subs ch msg) Hrest).
    destruct (sendToClients rest (handOver subs ch msg) msg) as [subs' evs].
    simpl in *. rewrite IH. do 2 f_equal.
    apply filter_ext_in. intros ch' Hin. apply handOver_other.
    intros ->. contradiction.
  - apply IH. exact Hrest.
Qed.

(** With one goroutine per channel, a hand-over on [ch] is a broadcast to
    [ch] alone. *)
Lemma handOver_afterBroadcast (subs : list subscriber) (ch : nat) :
  NoDup (map sub_ch subs) ->
  handOver subs ch msg = map (afterBroadcast [ch] msg) subs.
Proof.
  induction subs as [|s rest IH]; intros Hnd; simpl; [reflexivity|].
  inversion Hnd as [|? ? Hnotin Hrest]; subst.
  unfold afterBroadcast at 1, selecting. simpl existsb. rewrite orb_false_r.
  destruct (Nat.eqb_spec (sub_ch s) ch) as [Hch|Hch]; simpl.
  - destruct (sub_state s) eqn:Hst.
    + f_equal. symmetry. rewrite <- map_id. apply map_ext_in.
      intros s' Hin. unfold afterBroadcast. simpl.
      destruct (Nat.eqb_spec (sub_ch s') ch) as [Heq|_].
      * exfalso. apply Hnotin. rewrite Hch, <- Heq. now apply in_map.
      * now destruct (sub_state s').
    + f_equal. now apply IH.
  - rewrite (IH Hrest). now destruct (sub_state s).
Qed.

Lemma afterBroadcast_cons (ch : nat) (rest : list nat) (s : subscriber) :
  afterBroadcast rest msg (afterBroadcast [ch] msg s)
  = afterBroadcast (ch :: rest) msg s.
Proof.
  unfold afterBroadcast. simpl existsb. rewrite orb_false_r.
  destruct (sub_state s) eqn:Hst.
  - destruct (Nat.eqb (sub_ch s) ch); simpl; [reflexivity|].
    now rewrite Hst.
  - now rewrite Hst.
Qed.

Lemma afterBroadcast_skip (ch : nat) (rest : list nat) (s : subscriber) :
  selecting ch s = false ->
  afterBroadcast (ch :: rest) msg s = afterBroadcast rest msg s.
Proof.
  unfold selecting, afterBroadcast. simpl existsb.
  destruct (sub_state s); [|reflexivity].
  rewrite andb_true_r. now intros ->.
Qed.

Lemma sendToClients_subscribers (chans : list nat) :
  forall subs : list subscriber,
    NoDup (map sub_ch subs) ->
    fst (sendToClients chans subs msg) = map (afterBroadcast chans msg) subs.
Proof.
  induction chans as [|ch rest IH]; intros subs Hnd; simpl.
  - rewrite <- map_id at 1. apply map_ext. intros s.
    unfold afterBroadcast. simpl. now destruct (sub_state s).
  - destruct (canReceive subs ch) eqn:Hcan.
    + assert (Hnd' : NoDup (map sub_ch (handOver subs ch msg)))
        by now rewrite handOver_channels.
      specialize (IH (handOver subs ch msg) Hnd').
      destruct (sendToClients rest (handOver subs ch msg) msg) as [subs' evs].
      simpl in *. rewrite IH, (handOver_afterBroadcast subs ch Hnd), map_map.
      apply map_ext. intros s. apply afterBroadcast_cons.
    + rewrite (IH subs Hnd). apply map_ext_in. intros s Hin.
      symmetry. apply afterBroadcast_skip.
      unfold canReceive in Hcan.
      destruct (selecting ch s) eqn:Hsel; [|reflexivity].
      assert (existsb (selecting ch) subs = true)
        by (apply existsb_exists; now exists s).
      congruence.
Qed.
End BroadcastSend.

(** *** The registry stays well formed *)

(** The goroutines that stay when the one of [ch] leaves still have
    channels of their own. *)
Lemma leaving_keeps_channels_distinct (subs : list subscriber) (ch : nat) :
  NoDup (map sub_ch subs) ->
  NoDup (map sub_ch (filter (fun s => negb (Nat.eqb (sub_ch s) ch)) subs)).
Proof.
  induction subs as [|s rest IH]; intros Hdistinct; simpl; [constructor|].
  apply NoDup_cons_iff in Hdistinct as [Hfresh Hrest].
  destruct (negb (Nat.eqb (sub_ch s) ch)); [|exact (IH Hrest)].
  simpl. apply NoDup_cons; [|exact (IH Hrest)].
  contradict Hfresh.
  apply in_map_iff in Hfresh as (s' & Heq & Hstays).
  apply filter_In in Hstays as [Hs' _].
  rewrite <- Heq. now apply in_map.
Qed.

Lemma sendToClients_channels (msg : wsUpdateMessage) (chans : list nat) :
  forall subs : list subscriber,
    map sub_ch (fst (sendToClients chans subs msg)) = map sub_ch subs.
Proof.
  induction chans as [|ch rest IH]; intros subs; simpl; [reflexivity|].
  destruct (canReceive subs ch).
  - specialize (IH (handOver subs ch msg)).
    destruct (sendToClients rest (handOver subs ch msg) msg) as [subs' evs].
    simpl in *. now rewrite IH, handOver_channels.
  - apply IH.
Qed.

Lemma new_wellFormed (port : Z) :
  registryWellFormed (newHTTPServerExporter port).
Proof.
  repeat split; simpl; try constructor; intros ? [].
Qed.

Lemma Update_wellFormed (b : broadcastServer) (data : healthData)
    (key : string) :
  registryWellFormed b ->
  registryWellFormed (fst (fst (httpServerExporter_Update b data key))).
Proof.
  intros (Hc & Hs & Hin & Hlt). unfold httpServerExporter_Update.
  pose proof (sendToClients_channels (mkWsUpdateMessage data key)
                (clients (srv b)) (subscribers b)) as Hch.
  destruct (sendToClients (clients (srv b)) (subscribers b) _) as [subs evs].
  simpl in *. unfold registryWellFormed. simpl. rewrite Hch. auto.
Qed.

Lemma deregister_wellFormed (b : broadcastServer) (ch : nat) :
  registryWellFormed b -> registryWellFormed (fst (deregister b ch)).
Proof.
  intros (Hc & Hs & Hin & Hlt). unfold registryWellFormed, deregister, Without.
  simpl. repeat split.
  - now apply NoDup_filter.
  - now apply leaving_keeps_channels_distinct.
  - intros c Hc'. apply in_map_iff in Hc' as (s & <- & Hs').
    apply filter_In in Hs' as [Hs' Hne]. apply filter_In. split; [|exact Hne].
    apply Hin. now apply in_map.
  - intros c Hc'. apply filter_In in Hc' as [Hc' _]. now apply Hlt.
Qed.

Lemma connectWS_wellFormed (b : broadcastServer) (upgraded : option nat)
    (written : bool) :
  registryWellFormed b ->
  registryWellFormed (fst (httpServerExporter_connectWS b upgraded written)).
Proof.
  intros (Hc & Hs & Hin & Hlt). unfold httpServerExporter_connectWS.
  destruct upgraded as [conn|]; [|now repeat split].
  assert (Hfresh : ~ In (madeChans b) (clients (srv b)))
    by (intros Hm; apply Hlt in Hm; lia).
  assert (Hreg : registryWellFormed
            (mkBroadcastServer
               (mkHttpServerExporter (clients (srv b) ++ [madeChans b])
                  (hse_data (srv b)))
               (subscribers b) (S (madeChans b)))).
  { repeat split; simpl.
    - apply NoDup_app; [exact Hc | repeat constructor; intros [] |].
      intros c Hin1 [<-|[]]. contradiction.
    - exact Hs.
    - intros c Hc'. apply in_or_app. left. now apply Hin.
    - intros c Hc'. apply in_app_or in Hc' as [Hc'|[<-|[]]]; [|lia].
      apply Hlt in Hc'. lia. }
  assert (Hpark : registryWellFormed
            (mkBroadcastServer
               (mkHttpServerExporter (clients (srv b) ++ [madeChans b])
                  (hse_data (srv b)))
               (subscribers b ++ [mkSubscriber conn (madeChans b) Selecting])
               (S (madeChans b)))).
  { destruct Hreg as (Hc1 & _ & Hin1 & Hlt1). repeat split; simpl in *.
    - exact Hc1.
    - rewrite map_app. simpl.
      apply NoDup_app; [exact Hs | repeat constructor; intros [] |].
      intros c Hin2 [<-|[]]. apply Hfresh. now apply Hin.
    - rewrite map_app. simpl. intros c Hc'.
      apply in_app_or in Hc' as [Hc'|[<-|[]]]; [now apply Hin1|].
      apply in_or_app. right. now left.
    - exact Hlt1. }
  simpl.
  destruct (negb (GoTime.IsZero (Time (hse_data (srv b))))); [|exact Hpark].
  destruct written; [exact Hpark|].
  apply (deregister_wellFormed _ (madeChans b)) in Hreg. exact Hreg.
Qed.

Lemma subscriber_write_wellFormed (b : broadcastServer) (ch : nat)
    (written : bool) :
  registryWellFormed b ->
  registryWellFormed (fst (subscriber_write b ch written)).
Proof.
  intros Hwf. unfold subscriber_write.
  destruct (find _ (subscribers b)) as [[conn c [|msg]]|]; try exact Hwf.
  destruct written; [|now apply deregister_wellFormed].
  destruct Hwf as (Hc & Hs & Hin & Hlt). unfold registryWellFormed. simpl.
  assert (Hmap : map sub_ch
            (map (fun s => if Nat.eqb (sub_ch s) ch
                           then mkSubscriber (sub_conn s) ch Selecting else s)
                 (subscribers b)) = map sub_ch (subscribers b)).
  { rewrite map_map. apply map_ext. intros s.
    destruct (Nat.eqb_spec (sub_ch s) ch); simpl; congruence. }
  rewrite Hmap. auto.
Qed.

Lemma subscriber_done_wellFormed (b : broadcastServer) (ch : nat) :
  registryWellFormed b -> registryWellFormed (fst (subscriber_done b ch)).
Proof.
  intros Hwf. unfold subscriber_done.
  destruct (canReceive (subscribers b) ch);
    [now apply deregister_wellFormed | exact Hwf].
Qed.

Lemma server_step_wellFormed (b : broadcastServer) (st : serverStep) :
  registryWellFormed b -> registryWellFormed (fst (server_step b st)).
Proof.
  intros Hwf. destruct st as [data key|upgraded written|ch written|ch]; simpl.
  - pose proof (Update_wellFormed b data key Hwf) as Hup.
    now destruct (httpServerExporter_Update b data key) as [[b' evs] err].
  - now apply connectWS_wellFormed.
  - now apply subscriber_write_wellFormed.
  - now apply subscriber_done_wellFormed.
Qed.

Lemma server_run_wellFormed (steps : list serverStep) :
  forall b, registryWellFormed b -> registryWellFormed (server_run b steps).
Proof.
  unfold server_run.
  induction steps as [|st rest IH]; intros b Hwf; simpl; [exact Hwf|].
  apply IH. now apply server_step_wellFormed.
Qed.

(** *** Nothing writes the record of the exporter *)

Lemma Update_keeps_srv (b : broadcastServer) (data : healthData)
    (key : string) :
  srv (fst (fst (httpServerExporter_Update b data key))) = srv b.
Proof.
  unfold httpServerExporter_Update.
  now destruct (sendToClients (clients (srv b)) (subscribers b) _).
Qed.

Lemma server_step_keeps_data (b : broadcastServer) (st : serverStep) :
  hse_data (srv (fst (server_step b st))) = hse_data (srv b).
Proof.
  destruct st as [data key|upgraded written|ch written|ch]; simpl.
  - pose proof (Update_keeps_srv b data key) as Hup.
    destruct (httpServerExporter_Update b data key) as [[b' evs] err].
    simpl in *. now rewrite Hup.
  - unfold httpServerExporter_connectWS.
    destruct upgraded as [conn|]; [|reflexivity]. simpl.
    destruct (negb (GoTime.IsZero (Time (hse_data (srv b))))); [|reflexivity].
    now destruct written.
  - unfold subscriber_write.
    destruct (find _ (subscribers b)) as [[conn c [|msg]]|]; try reflexivity.
    now destruct written.
  - unfold subscriber_done. now destruct (canReceive (subscribers b) ch).
Qed.

Lemma server_run_keeps_data (steps : list serverStep) :
  forall b, hse_data (srv (server_run b steps)) = hse_data (srv b).
Proof.
  unfold server_run.
  induction steps as [|st rest IH]; intros b; simpl; [reflexivity|].
  now rewrite IH, server_step_keeps_data.
Qed.

(** C6.  In every state a broadcast server can reach, [Update] hands the
    message to exactly the registered channels on which a goroutine is
    blocked receiving, once each and in the order of the registry; a
    subscriber that is busy holds afterwards what it held before, so it has
    missed the update, and nothing is kept for it; whether one channel is
    served does not depend on any other.  The exporter itself is unchanged
    and the call returns no error. *)
Theorem broadcast_is_drop_on_busy (port : Z) (steps : list serverStep)
    (data : healthData) (updatedKey : string) :
  let b := server_run (newHTTPServerExporter port) steps in
  let msg := mkWsUpdateMessage data updatedKey in
  let '(b', evs, err) := httpServerExporter_Update b data updatedKey in
  NoDup (clients (srv b)) /\
  evs = map (fun ch => ChanSend ch msg)
            (filter (canReceive (subscribers b)) (clients (srv b))) /\
  subscribers b'
  = map (fun s => match sub_state s with
                  | Selecting =>
                      mkSubscriber (sub_conn s) (sub_ch s) (Holding msg)
                  | Holding _ => s
                  end)
        (subscribers b) /\
  srv b' = srv b /\
  err = None.
Proof.
  intros b msg.
  destruct (server_run_wellFormed steps _ (new_wellFormed port))
    as (Hc & Hs & Hin & _).
  fold b in Hc, Hs, Hin.
  unfold httpServerExporter_Update. fold msg.
  pose proof (sendToClients_events msg (clients (srv b)) (subscribers b) Hc)
    as Hev.
  pose proof (sendToClients_subscribers msg (clients (srv b)) (subscribers b)
                Hs) as Hsub.
  destruct (sendToClients (clients (srv b)) (subscribers b) msg) as [subs evs].
  simpl in *. subst subs evs. repeat split; try assumption.
  apply map_ext_in. intros s Hs'. unfold afterBroadcast.
  destruct (sub_state s); [|reflexivity].
  assert (Hreg : existsb (Nat.eqb (sub_ch s)) (clients (srv b)) = true).
  { apply existsb_exists. exists (sub_ch s). split; [|apply Nat.eqb_refl].
    apply Hin. now apply in_map. }
  now rewrite Hreg.
Qed.

(** Three subscribers, the second one busy writing an earlier frame: the
    next update reaches the first and the third and not the second. *)
Example broadcast_skips_the_busy_one :
  let d1 := record_at 1700000000 80 in
  let d2 := record_at 1700000001 81 in
  let b := server_run (newHTTPServerExporter 8080)
             [DoConnectWS (Some 10%nat) true; DoConnectWS (Some 11%nat) true;
              DoConnectWS (Some 12%nat) true;
              DoUpdate d1 "heartRate"; DoWrite 0%nat true;
              DoWrite 2%nat true] in
  snd (fst (httpServerExporter_Update b d2 "heartRate"))
  = [ChanSend 0%nat (mkWsUpdateMessage d2 "heartRate");
     ChanSend 2%nat (mkWsUpdateMessage d2 "heartRate")]
  /\ map sub_state
         (subscribers (fst (fst (httpServerExporter_Update b d2 "heartRate"))))
     = [Holding (mkWsUpdateMessage d2 "heartRate");
        Holding (mkWsUpdateMessage d1 "heartRate");
        Holding (mkWsUpdateMessage d2 "heartRate")].
Proof. split; reflexivity. Qed.

(** C4, where the code departs from it.  [httpServerExporter.Update] never
    stores the record it is given, so the record the stream endpoint reads stays
    the zero value: in every state the server can reach, also after updates,
    a client that connects gets no initial frame; all [connectWS] writes
    before its send loop is the log line of the new connection. *)
Theorem connectWS_sends_no_initial_frame (port : Z)
    (steps : list serverStep) (conn : nat) (written : bool) :
  snd (httpServerExporter_connectWS
         (server_run (newHTTPServerExporter port) steps) (Some conn) written)
  = [Log LevelInfo "New WebSocket connection"].
Proof.
  unfold httpServerExporter_connectWS. simpl.
  rewrite server_run_keeps_data. reflexivity.
Qed.

(** The failing run of C4: one update with heart rate 80, then a client
    connects. *)
Example connectWS_after_an_update :
  let d := record_at 1700000000 80 in
  snd (httpServerExporter_connectWS
         (server_run (newHTTPServerExporter 8080) [DoUpdate d "heartRate"])
         (Some 10%nat) true)
  = [Log LevelInfo "New WebSocket connection"].
Proof. reflexivity. Qed.

(** [connectWS] and [getLatest] on a server whose record is set: what the
    two would do had [Update] stored the record. *)
Example connectWS_with_a_record :
  let d := record_at 1700000000 80 in
  let b := mkBroadcastServer (mkHttpServerExporter [] d) [] 0 in
  snd (httpServerExporter_connectWS b (Some 10%nat) true)
  = [Log LevelInfo "New WebSocket connection";
     ConnWriteJSON 10%nat (mkWsUpdateMessage d "all")]
  /\ fst (httpServerExporter_getLatest (srv b))
     = mkResponse 200 (Some "application/json") (JSONBody d).
Proof. split; reflexivity. Qed.

(** [getLatest] by the record the exporter holds. *)
Lemma getLatest_by_record (h : httpServerExporter) :
  (GoTime.IsZero (Time (hse_data h)) = true ->
   fst (httpServerExporter_getLatest h) = mkResponse 404 None NoBody) /\
  (GoTime.IsZero (Time (hse_data h)) = false ->
   json_encodable (hse_data h) = true ->
   fst (httpServerExporter_getLatest h)
   = mkResponse 200 (Some "application/json") (JSONBody (hse_data h))).
Proof.
  unfold httpServerExporter_getLatest.
  split; [intros -> | intros -> ->]; reflexivity.
Qed.

Section PushToBroadcast.
Variable ParseFloat : string -> option float64.

Lemma notifyExporters_keeps_srv (exporters : list broadcastServer)
    (data : healthData) (key : string) :
  map srv (fst (notifyExporters exporters data key)) = map srv exporters.
Proof.
  rewrite notifyExporters_states, map_map. apply map_ext.
  intros b. apply Update_keeps_srv.
Qed.

Lemma dataHandler_keeps_srv (h : hdsReceiver) (now : GoTime.time)
    (r : decodedBody) :
  map srv
      (hds_exporters (fst (fst (hdsReceiver_dataHandler ParseFloat h now r))))
  = map srv (hds_exporters h).
Proof.
  unfold hdsReceiver_dataHandler.
  destruct r as [err|data]; [reflexivity|].
  destruct (negb _); [reflexivity|].
  destruct (ParseFloat _) as [value|]; [|reflexivity].
  destruct (healthData_Update _ _ _ _) as [d warned].
  pose proof (notifyExporters_keeps_srv (hds_exporters h) d
                (nth 0 (GoStrings.Split (req_Data data) ":") "")) as Hk.
  now destruct (notifyExporters _ _ _) as [exporters sent].
Qed.

Lemma hdsReceiver_run_keeps_srv (reqs : list (GoTime.time * decodedBody)) :
  forall h : hdsReceiver,
    map srv (hds_exporters (hdsReceiver_run ParseFloat h reqs))
    = map srv (hds_exporters h).
Proof.
  unfold hdsReceiver_run.
  induction reqs as [|r rest IH]; intros h; simpl; [reflexivity|].
  now rewrite IH, dataHandler_keeps_srv.
Qed.

(** C5, where the code departs from it.  Whatever requests a push receiver
    started with one broadcast server has handled, a push of heartRate:80
    among them, [getLatest] on that server answers 404: the record it reads is
    never written. *)
Theorem getLatest_not_found_after_pushes (port : Z)
    (reqs : list (GoTime.time * decodedBody)) :
  map (fun b => fst (httpServerExporter_getLatest (srv b)))
      (hds_exporters
         (hdsReceiver_run ParseFloat
            (newHDSReceiver [newHTTPServerExporter port]) reqs))
  = [mkResponse 404 None NoBody].
Proof.
  rewrite <- (map_map srv (fun h => fst (httpServerExporter_getLatest h))).
  rewrite hdsReceiver_run_keeps_srv. reflexivity.
Qed.
End PushToBroadcast.

(** The failing run of C5: the push of heartRate:80 is answered 200, the
    GET that follows 404. *)
Example getLatest_after_heartRate_80 :
  let h := newHDSReceiver [newHTTPServerExporter 8080] in
  let req := Decoded (mkHdsRequest "heartRate:80") in
  let '(h', resp, _) :=
    hdsReceiver_dataHandler ParseFloat_digits h 1700000000 req in
  StatusCode resp = 200 /\
  HeartRate (hds_data h') = 80 /\
  map (fun b => httpServerExporter_getLatest (srv b)) (hds_exporters h')
  = [(mkResponse 404 None NoBody, [])].
Proof. repeat split. Qed.

(** ** The signal sender *)

Lemma normalized_80 :
  Float64.div (Float64.of_int 80) (Float64.of_int 256)
  = Float64.of_dyadic 5 (-4)
  /\ Float64.div (Float64.of_int 80) (Float64.of_int 256)
     = Float64.div (Float64.of_int 3125) (Float64.of_int 10000).
Proof. split; vm_compute; reflexivity. Qed.

(** C8.  [Update] of the signal sender sends nothing and returns no error
    when the updated key is neither "heartRate" nor "all"; otherwise it makes
    one send, to the configured address, of one number: the heart rate of the
    record divided by 256.  For the heart rate 80 that number is 0.3125,
    that is 5/16 or 3125/10000. *)
Theorem osc_sends_heart_rate_over_256
    (osc_Client_Send : oscClient -> oscMessage -> option error)
    (sendIP : string) (sendPort : Z) (addr : string)
    (data : healthData) (updatedKey : string) :
  let o := newOSCExporter sendIP sendPort addr in
  let value :=
    Float64.div (Float64.of_int (HeartRate data)) (Float64.of_int 256) in
  let '(o', evs, err) := oscExporter_Update osc_Client_Send o data updatedKey in
  o' = o /\
  (updatedKey <> "heartRate" -> updatedKey <> "all" ->
   evs = [] /\ err = None) /\
  (updatedKey = "heartRate" \/ updatedKey = "all" ->
   evs = [OSCSend addr [value]] /\
   err = osc_Client_Send (client o) (mkOscMessage addr [value])) /\
  (HeartRate data = 80 ->
   value = Float64.of_dyadic 5 (-4) /\
   value = Float64.div (Float64.of_int 3125) (Float64.of_int 10000)).
Proof.
  intros o value.
  assert (Heighty : HeartRate data = 80 ->
            value = Float64.of_dyadic 5 (-4) /\
            value = Float64.div (Float64.of_int 3125) (Float64.of_int 10000)).
  { intros Heq. subst value. rewrite Heq. exact normalized_80. }
  unfold oscExporter_Update.
  destruct (String.eqb_spec updatedKey "heartRate") as [->|Hhr];
    [|destruct (String.eqb_spec updatedKey "all") as [->|Hall]];
    cbn [negb andb].
  - split; [reflexivity|]. split; [congruence|]. split; [|exact Heighty].
    intros _. split; reflexivity.
  - split; [reflexivity|]. split; [congruence|]. split; [|exact Heighty].
    intros _. split; reflexivity.
  - split; [reflexivity|]. split; [now split|]. split; [|exact Heighty].
    intros [Heq|Heq]; contradiction.
Qed.

Lemma osc_sends_heart_rate_over_256_witness :
  let data := record_at 1700000000 80 in
  let o := newOSCExporter "127.0.0.1" 9000 "/avatar/parameters/HeartRate" in
  oscExporter_Update osc_Send_ok o data "heartRate"
  = (o, [OSCSend "/avatar/parameters/HeartRate" [Float64.of_dyadic 5 (-4)]],
     None)
  /\ oscExporter_Update osc_Send_ok o data "stepCount" = (o, [], None).
Proof.
  intros data o.
  pose proof (osc_sends_heart_rate_over_256 osc_Send_ok "127.0.0.1" 9000
                "/avatar/parameters/HeartRate" data "heartRate") as Hhr.
  pose proof (osc_sends_heart_rate_over_256 osc_Send_ok "127.0.0.1" 9000
                "/avatar/parameters/HeartRate" data "stepCount") as Hsc.
  cbv zeta in Hhr, Hsc. fold o in Hhr, Hsc.
  destruct (oscExporter_Update osc_Send_ok o data "heartRate")
    as [[o1 evs1] err1].
  destruct (oscExporter_Update osc_Send_ok o data "stepCount")
    as [[o2 evs2] err2].
  destruct Hhr as (-> & _ & Hsent & Hvalue).
  destruct Hsc as (-> & Hnone & _).
  destruct (Hsent (or_introl eq_refl)) as [-> ->].
  destruct (Hvalue eq_refl) as [-> _].
  destruct Hnone as [-> ->]; [discriminate | discriminate |].
  split; reflexivity.
Defined.

(** ** The metrics endpoint *)

Lemma last_nonempty {A : Type} (l : list A) :
  forall a d d' : A, last (a :: l) d = last (a :: l) d'.
Proof.
  induction l as [|b l IH]; intros a d d'; [reflexivity|].
  change (last (b :: l) d = last (b :: l) d'). apply IH.
Qed.

Lemma prometheus_fold_data (updates : list (healthData * string)) :
  forall p : prometheusExporter,
    prom_data
      (fold_left
         (fun p u => fst (fst (prometheusExporter_Update p (fst u) (snd u))))
         updates p)
    = last (map fst updates) (prom_data p).
Proof.
  induction updates as [|u rest IH]; intros p; simpl; [reflexivity|].
  rewrite IH. simpl. destruct (map fst rest) as [|d ds]; [reflexivity|].
  apply last_nonempty.
Qed.

Lemma Since_zero_is_stale (now : GoTime.time) :
  30 * GoTime.Second < now ->
  30 * GoTime.Second < GoTime.Since now GoTime.zero.
Proof.
  unfold GoTime.Since, GoTime.zero, Int64.saturate, Int64.min_int,
    Int64.max_int, GoTime.Second.
  change (2 ^ 63) with 9223372036854775808. intros Hnow.
  rewrite Z.sub_0_r.
  repeat match goal with
         | |- context [Z.ltb ?a ?b] => destruct (Z.ltb_spec a b)
         end; lia.
Qed.

(** C7.  A scrape of the metrics endpoint is always answered 200.  The
    body is empty when no [Update] has been received or when the record's
    time lies more than 30 seconds before the scrape.  Otherwise the body is
    an exposition that is not empty and in which heart_rate is the heart
    rate of the record of the latest [Update].  The clock of the scrape is
    taken to read more than 30 seconds after the zero instant.  This holds
    of every request, whatever Content-Type the library negotiates for
    it. *)
Theorem metrics_only_while_fresh (port : Z)
    (updates : list (healthData * string)) (now : GoTime.time)
    (Negotiate : string -> string) (accept : string) :
  30 * GoTime.Second < now ->
  let p := prometheus_run port updates in
  let resp := prometheusExporter_ServeHTTP Negotiate p accept now in
  let stale := 30 * GoTime.Second < GoTime.Since now (Time (prom_data p)) in
  prom_data p = last (map fst updates) healthData_zero /\
  StatusCode resp = 200 /\
  (updates = [] \/ stale -> Body resp = NoBody) /\
  (~ (updates = [] \/ stale) ->
   exists families,
     Body resp = MetricsBody families /\
     families <> [] /\
     metricValue "heart_rate" resp
     = Some (Float64.of_int
               (HeartRate (last (map fst updates) healthData_zero)))).
Proof.
  intros Hclock p resp stale.
  assert (Hdata : prom_data p = last (map fst updates) healthData_zero)
    by apply prometheus_fold_data.
  subst resp. unfold prometheusExporter_ServeHTTP, freshnessWindow.
  split; [exact Hdata|].
  destruct (GoTime.IsZero (Time (prom_data p))) eqn:Hzero; simpl.
  - split; [reflexivity|]. split; [reflexivity|].
    intros Hfresh. exfalso. apply Hfresh. right. subst stale.
    apply Z.eqb_eq in Hzero. rewrite Hzero.
    now apply Since_zero_is_stale.
  - match goal with
    | |- context [Z.ltb ?a ?b] => destruct (Z.ltb_spec a b) as [Hstale|Hfresh]
    end.
    + split; [reflexivity|]. split; [reflexivity|].
      intros Hnot. exfalso. apply Hnot. right. exact Hstale.
    + split; [reflexivity|]. split.
      * intros [->|Hstale]; [discriminate Hzero|].
        subst stale. unfold GoTime.Second in Hstale. lia.
      * intros _. exists (registry_Gather p).
        split; [reflexivity|]. split; [discriminate|].
        unfold metricValue. simpl. now rewrite Hdata.
Qed.

Lemma metrics_only_while_fresh_witness :
  let d := mkHealthData 63900000000000000000 80 120 (S754_zero false)
             (S754_zero false) 7 in
  (* ten seconds after the update *)
  metricValue "heart_rate"
    (prometheusExporter_ServeHTTP Negotiate_text
       (prometheus_run 9090 [(d, "heartRate")]) "" 63900000010000000000)
  = Some (Float64.of_int 80)
  /\ (* forty seconds after the update *)
  Body (prometheusExporter_ServeHTTP Negotiate_text
          (prometheus_run 9090 [(d, "heartRate")]) "" 63900000040000000000)
  = NoBody.
Proof.
  intros d. split.
  - destruct (metrics_only_while_fresh 9090 [(d, "heartRate")]
                63900000010000000000 Negotiate_text "")
      as (_ & _ & _ & Hfresh); [reflexivity|].
    destruct Hfresh as (families & _ & _ & Hvalue); [|exact Hvalue].
    intros [Hnone|Hstale]; [discriminate Hnone|].
    vm_compute in Hstale. discriminate Hstale.
  - destruct (metrics_only_while_fresh 9090 [(d, "heartRate")]
                63900000040000000000 Negotiate_text "")
      as (_ & _ & Hempty & _); [reflexivity|].
    apply Hempty. right. reflexivity.
Defined.

(** ** One push through all three exporters *)

(** The push of heartRate:80 to a receiver started with the broadcast
    server, the signal sender and the metrics endpoint: the signal sender
    sends 0.3125 and a scrape ten seconds later shows heart_rate 80, while a
    GET for the latest record is answered 404. *)
Example push_heartRate_80_end_to_end :
  let send := anyExporter_exporter osc_Send_ok in
  let osc := newOSCExporter "127.0.0.1" 9000 "/avatar/parameters/HeartRate" in
  let h := @newHDSReceiver anyExporter
             [WSServer (newHTTPServerExporter 8080); OSC osc;
              Prom (newPrometheusExporter 9090)] in
  let now := 63900000000000000000 in
  let '(h', resp, evs) :=
    @hdsReceiver_dataHandler anyExporter send ParseFloat_digits h now
      (putData "heartRate:80") in
  StatusCode resp = 200 /\
  evs = [Log LevelInfo "Received hds req";
         OSCSend "/avatar/parameters/HeartRate" [Float64.of_dyadic 5 (-4)]] /\
  map (fun x => match x with
                | WSServer b =>
                    Some (StatusCode
                            (fst (httpServerExporter_getLatest (srv b))))
                | _ => None
                end) (hds_exporters h')
  = [Some 404; None; None] /\
  map (fun x => match x with
                | Prom p =>
                    metricValue "heart_rate"
                      (prometheusExporter_ServeHTTP Negotiate_text p ""
                         (now + 10 * GoTime.Second))
                | _ => None
                end) (hds_exporters h')
  = [None; None; Some (Float64.of_int 80)].
Proof. vm_compute. repeat split. Qed.

(** * Further properties *)

(** ** The push handler, case by case *)

Lemma Join_Split (s : string) (sep : ascii) :
  Join (GoStrings.Split s sep) sep = s.
Proof.
  induction s as [|a rest IH]; simpl; [reflexivity|].
  destruct (Ascii.eqb_spec a sep) as [->|Hne].
  - pose proof (SplitFacts.Split_not_nil rest sep) as Hnn.
    simpl. destruct (GoStrings.Split rest sep) as [|p ps] eqn:Hs;
      [contradiction|]. now rewrite IH.
  - pose proof (SplitFacts.Split_not_nil rest sep) as Hnn.
    destruct (GoStrings.Split rest sep) as [|p ps] eqn:Hs; [contradiction|].
    simpl in *. destruct ps as [|q qs]; simpl in *; now rewrite <- IH.
Qed.

Section PushHandlerCases.
Context {E : Type} `{exporter E}.
Variable ParseFloat : string -> option float64.

(** X1.  The push handler answers 200 or 400 and nothing else.  It answers
    200 exactly when the body decodes to a payload [key:value] with one
    separator whose value part parses; whenever it answers 400 the receiver,
    its record and its exporters are as before. *)
Theorem push_status_by_payload (h : hdsReceiver) (now : GoTime.time)
    (r : decodedBody) :
  let '(h', resp, _) := hdsReceiver_dataHandler ParseFloat h now r in
  (StatusCode resp = 200 \/ StatusCode resp = 400) /\
  (StatusCode resp = 200 <->
   exists key valueStr value,
     r = putData (key ++ ":" ++ valueStr)%string /\
     GoStrings.Count (key ++ ":" ++ valueStr)%string ":" = 1%nat /\
     ParseFloat valueStr = Some value) /\
  (StatusCode resp = 400 -> h' = h).
Proof.
  destruct r as [err|[data]].
  - simpl. split; [now right|]. split; [|reflexivity].
    split; [discriminate|]. intros (k & vs & v & Hr & _). discriminate Hr.
  - destruct (Nat.eq_dec (GoStrings.Count data ":") 1) as [Hone|Hcount].
    + pose proof (SplitFacts.Split_length data ":") as Hlen.
      pose proof (Join_Split data ":") as Hjoin.
      destruct (GoStrings.Split data ":") as [|key [|valueStr [|x xs]]] eqn:Hs;
        simpl in Hlen; try lia.
      simpl in Hjoin. subst data.
      destruct (ParseFloat valueStr) as [value|] eqn:Hnum.
      * pose proof (dataHandler_accepts ParseFloat h now key valueStr value
                      Hone Hnum) as Hok.
        unfold putData in Hok. change (key ++ ":" ++ valueStr)%string
          with (key ++ String ":" valueStr)%string in Hok.
        rewrite Hok.
        destruct (healthData_Update _ _ _ _) as [d warned].
        destruct (notifyExporters _ _ _) as [exporters sent].
        split; [now left|]. split; [|discriminate].
        split; [|reflexivity]. intros _. now exists key, valueStr, value.
      * pose proof (dataHandler_rejects_value ParseFloat h now key valueStr
                      Hone Hnum) as Hbad.
        unfold putData in Hbad. change (key ++ ":" ++ valueStr)%string
          with (key ++ String ":" valueStr)%string in Hbad.
        rewrite Hbad.
        split; [now right|]. split; [|reflexivity].
        split; [discriminate|].
        intros (k & vs & v & Hr & Hc & Hv). exfalso.
        injection Hr as Hr.
        change (k ++ ":" ++ vs)%string with (k ++ String ":" vs)%string in *.
        pose proof (SplitFacts.Split_one k vs ":" Hc) as Hsplit.
        rewrite <- Hr, Hs in Hsplit. injection Hsplit as -> ->. congruence.
    + pose proof (dataHandler_rejects_format ParseFloat h now data Hcount)
        as Hbad.
      unfold putData in Hbad. rewrite Hbad.
      split; [now right|]. split; [|reflexivity].
      split; [discriminate|].
      intros (k & vs & v & Hr & Hc & _). injection Hr as ->. contradiction.
Qed.

(** X2.  For every payload with one separator and a numeric value, whatever
    the key, the handler stores the record that [healthData.Update] gives,
    answers 200 whether or not an exporter fails, and leaves every exporter
    in the state its own [Update] gives for that record and key: the list
    keeps its length and its order, and no exporter's outcome depends on
    another's. *)
Theorem push_updates_every_exporter (h : hdsReceiver) (now : GoTime.time)
    (key valueStr : string) (value : float64) :
  GoStrings.Count (key ++ ":" ++ valueStr)%string ":" = 1%nat ->
  ParseFloat valueStr = Some value ->
  let '(h', resp, evs) :=
    hdsReceiver_dataHandler ParseFloat h now
      (putData (key ++ ":" ++ valueStr)%string) in
  let d' := fst (healthData_Update (hds_data h) now key value) in
  StatusCode resp = 200 /\
  hds_data h' = d' /\
  List.length (hds_exporters h') = List.length (hds_exporters h) /\
  (forall i s, nth_error (hds_exporters h) i = Some s ->
     nth_error (hds_exporters h') i = Some (fst (fst (Update s d' key)))) /\
  evs = Log LevelInfo "Received hds req"
        :: snd (healthData_Update (hds_data h) now key value)
        ++ flat_map (notified d' key) (hds_exporters h).
Proof.
  intros Hone Hnum.
  rewrite (dataHandler_accepts ParseFloat h now key valueStr value Hone Hnum).
  destruct (healthData_Update (hds_data h) now key value) as [d warned].
  pose proof (notifyExporters_states (hds_exporters h) d key) as Hst.
  pose proof (notifyExporters_events (hds_exporters h) d key) as Hev.
  destruct (notifyExporters (hds_exporters h) d key) as [exporters sent].
  simpl in *. subst exporters sent.
  split; [reflexivity|]. split; [reflexivity|].
  split; [apply length_map|]. split; [|reflexivity].
  intros i s Hi. rewrite nth_error_map, Hi. reflexivity.
Qed.
End PushHandlerCases.

Lemma push_status_by_payload_witness :
  StatusCode
    (snd (fst (hdsReceiver_dataHandler ParseFloat_digits
                 (newHDSReceiver [mkRecorder []]) 1700000000
                 (putData "heartRate:80"))))
  = 200.
Proof.
  pose proof (push_status_by_payload ParseFloat_digits
                (newHDSReceiver [mkRecorder []]) 1700000000
                (putData "heartRate:80")) as Hcases.
  destruct (hdsReceiver_dataHandler ParseFloat_digits
              (newHDSReceiver [mkRecorder []]) 1700000000
              (putData "heartRate:80")) as [[h' resp] evs].
  destruct Hcases as (_ & Hok & _). apply Hok.
  exists "heartRate", "80", (Float64.of_int 80). repeat split.
Defined.

Lemma push_updates_every_exporter_witness :
  let h := newHDSReceiver [mkRecorder []; mkRecorder []] in
  let '(h', resp, _) :=
    hdsReceiver_dataHandler ParseFloat_digits h 1700000000
      (putData "stepCount:120") in
  StatusCode resp = 200 /\
  map received (hds_exporters h')
  = [[(set_StepCount 120 (record_at 1700000000 0), "stepCount")];
     [(set_StepCount 120 (record_at 1700000000 0), "stepCount")]].
Proof.
  pose proof (push_updates_every_exporter ParseFloat_digits
                (newHDSReceiver [mkRecorder []; mkRecorder []]) 1700000000
                "stepCount" "120" (Float64.of_int 120) eq_refl eq_refl)
    as Hpush.
  vm_compute in Hpush |- *.
  destruct Hpush as (Hstatus & _ & _ & Heach & _).
  split; [exact Hstatus | reflexivity].
Defined.

(** ** The record over a run of updates *)

Lemma healthData_run_snoc (d : healthData) (calls : list updateCall)
    (c : updateCall) :
  healthData_run d (calls ++ [c])
  = fst (healthData_Update (healthData_run d calls) (call_time c)
           (call_key c) (call_value c)).
Proof. unfold healthData_run. now rewrite fold_left_app. Qed.

Lemma latestValue_snoc (key : string) (calls : list updateCall)
    (c : updateCall) :
  latestValue key (calls ++ [c])
  = if String.eqb (call_key c) key then Some (call_value c)
    else latestValue key calls.
Proof.
  unfold latestValue. rewrite rev_app_distr. simpl.
  now destruct (String.eqb (call_key c) key).
Qed.

(** X3.  After any run of [healthData.Update] calls every metric field holds
    the value of the latest call that named its key, truncated for the
    integer fields, or what it held at the start when no call named it; the
    time is the clock of the last call, whatever key that call named. *)
Theorem record_holds_latest_values (d : healthData) (calls : list updateCall) :
  let d' := healthData_run d calls in
  let int_or (old : Z) (v : option float64) :=
    match v with Some x => Float64.to_int x | None => old end in
  let float_or (old : float64) (v : option float64) :=
    match v with Some x => x | None => old end in
  HeartRate d' = int_or (HeartRate d) (latestValue "heartRate" calls) /\
  StepCount d' = int_or (StepCount d) (latestValue "stepCount" calls) /\
  DistanceTraveled d'
  = float_or (DistanceTraveled d) (latestValue "distanceTraveled" calls) /\
  Speed d' = float_or (Speed d) (latestValue "speed" calls) /\
  Calories d' = int_or (Calories d) (latestValue "calories" calls) /\
  Time d' = match rev calls with
            | c :: _ => call_time c
            | [] => Time d
            end.
Proof.
  induction calls as [|c calls IH] using rev_ind.
  - repeat split.
  - cbv zeta in *. rewrite healthData_run_snoc, !latestValue_snoc.
    rewrite rev_app_distr. cbn [rev app].
    destruct IH as (Hh & Hs & Hd & Hv & Hc & _).
    unfold healthData_Update.
    destruct (String.eqb_spec (call_key c) "heartRate") as [->|_];
      [simpl; auto 10|].
    destruct (String.eqb_spec (call_key c) "stepCount") as [->|_];
      [simpl; auto 10|].
    destruct (String.eqb_spec (call_key c) "distanceTraveled") as [->|_];
      [simpl; auto 10|].
    destruct (String.eqb_spec (call_key c) "speed") as [->|_];
      [simpl; auto 10|].
    destruct (String.eqb_spec (call_key c) "calories") as [_|_];
      simpl; auto 10.
Qed.

(** ** The pull receiver: frames and waits *)

Section PullReceiverRuns.
Context {E : Type} `{exporter E}.

Lemma receiveMessages_forwardAll (msgs : list wsUpdateMessage) :
  forall exporters : list E,
    fst (receiveMessages exporters msgs) = forwardAll exporters msgs.
Proof.
  induction msgs as [|msg rest IH]; intros exporters; simpl; [reflexivity|].
  pose proof (notifyExporters_states exporters (Data msg) (UpdatedKey msg))
    as Hst.
  destruct (notifyExporters exporters (Data msg) (UpdatedKey msg))
    as [exporters' sent].
  specialize (IH exporters').
  destruct (receiveMessages exporters' rest) as [exporters'' evs].
  simpl in *. now subst.
Qed.

(** X4.  One connection of the pull receiver hands every frame it decoded
    to every exporter, in the order received, also when the connection then
    ends in a read or decode error; it returns no error exactly when the
    stream ended with EOF.  When the dial fails no exporter is called and
    nothing is logged by [connect] itself. *)
Theorem connect_forwards_every_frame (h : wsPullReceiver)
    (msgs : list wsUpdateMessage) (ending : sessionEnd) (err : error) :
  let '(h', _, failed) := wsPullReceiver_connect h (Dialed msgs ending) in
  ws_exporters h' = forwardAll (ws_exporters h) msgs /\
  ws_addr h' = ws_addr h /\
  (failed = None <-> ending = EndEOF) /\
  wsPullReceiver_connect h (DialError err)
  = (h, [], Some ("dialing websocket server: " ++ err)%string).
Proof.
  simpl.
  pose proof (receiveMessages_forwardAll msgs (ws_exporters h)) as Hfw.
  destruct (receiveMessages (ws_exporters h) msgs) as [exporters evs].
  simpl in Hfw. subst exporters.
  destruct ending; simpl; repeat split; congruence.
Qed.

Lemma Start_sleeps_at_least_first_wait (sessions : list session) :
  forall h : wsPullReceiver,
    backoffBounded h ->
    Forall (fun turn => wsPullFirstWait <= snd turn)
           (snd (wsPullReceiver_Start h sessions)).
Proof.
  induction sessions as [|s rest IH]; intros h Hb; simpl; [constructor|].
  pose proof (Start_turn_backoff h s Hb) as Hturn.
  destruct (Start_turn_bounded h s Hb) as [Hb' _].
  destruct (wsPullReceiver_Start_turn h s) as [[h' evs] slept].
  simpl in Hb'. specialize (IH h' Hb').
  destruct (wsPullReceiver_Start h' rest) as [h'' turns]. simpl in *.
  constructor; [|exact IH]. simpl.
  destruct Hb as [Hlo _].
  destruct (endsCleanly s); destruct Hturn as [-> _]; [lia | exact Hlo].
Qed.

(** X5.  The reconnect loop never spins: every sleep of every turn, in
    every run from a new pull receiver, lasts at least one second. *)
Theorem reconnect_never_spins (exporters : list E) (addr : string)
    (sessions : list session) :
  Forall (fun turn => GoTime.Second <= snd turn)
         (snd (wsPullReceiver_Start (newWSPullReceiver exporters addr)
                 sessions)).
Proof.
  apply (Start_sleeps_at_least_first_wait sessions _
           (new_bounded exporters addr)).
Qed.

Lemma failures_double (sessions : list session) :
  forall h : wsPullReceiver,
    backoffBounded h ->
    forallb (fun s => negb (endsCleanly s)) sessions = true ->
    nextBackoff (fst (wsPullReceiver_Start h sessions))
    = Z.min (2 ^ Z.of_nat (List.length sessions) * nextBackoff h)
            wsPullMaxBackoff.
Proof.
  induction sessions as [|s rest IH]; intros h Hb Hall.
  - cbn [wsPullReceiver_Start fst List.length].
    change (Z.of_nat 0) with 0. rewrite Z.pow_0_r.
    destruct Hb as [_ Hhi]. lia.
  - simpl in Hall. apply andb_true_iff in Hall as [Hs Hrest].
    apply negb_true_iff in Hs.
    pose proof (Start_turn_backoff h s Hb) as Hturn.
    destruct (Start_turn_bounded h s Hb) as [Hb' _].
    cbn [wsPullReceiver_Start].
    destruct (wsPullReceiver_Start_turn h s) as [[h' evs] slept].
    cbn [fst snd] in Hb'. specialize (IH h' Hb' Hrest).
    destruct (wsPullReceiver_Start h' rest) as [h'' turns].
    cbn [fst] in *. rewrite Hs in Hturn. destruct Hturn as [_ Hnext].
    rewrite IH, Hnext.
    cbn [List.length]. rewrite Nat2Z.inj_succ, Z.pow_succ_r by lia.
    destruct Hb as [Hlo Hhi].
    assert (Hpow : 1 <= 2 ^ Z.of_nat (List.length rest))
      by (apply Z.pow_le_mono_r with (b := 0); lia).
    unfold wsPullFirstWait, wsPullMaxBackoff, GoTime.Minute, GoTime.Second in *.
    nia.
Qed.

(** X6.  After n sessions in a row that ended in an error, counted from a
    new pull receiver, the backoff is 2^n seconds capped at ten minutes. *)
Theorem backoff_after_failures (exporters : list E) (addr : string)
    (sessions : list session) :
  forallb (fun s => negb (endsCleanly s)) sessions = true ->
  nextBackoff (fst (wsPullReceiver_Start (newWSPullReceiver exporters addr)
                      sessions))
  = Z.min (2 ^ Z.of_nat (List.length sessions) * GoTime.Second)
          (10 * GoTime.Minute).
Proof.
  intros Hall.
  apply (failures_double sessions _ (new_bounded exporters addr) Hall).
Qed.
End PullReceiverRuns.

Lemma backoff_after_failures_witness :
  nextBackoff
    (fst (wsPullReceiver_Start (newWSPullReceiver [mkRecorder []] "ws://h/ws")
            [DialError "refused"; Dialed [] (EndReadError "reset");
             Dialed [] (EndDecodeError "bad frame")]))
  = 8000000000.
Proof.
  apply (backoff_after_failures [mkRecorder []] "ws://h/ws"
           [DialError "refused"; Dialed [] (EndReadError "reset");
            Dialed [] (EndDecodeError "bad frame")]).
  reflexivity.
Defined.

(** ** The broadcast server: registry and delivery *)

Lemma Without_channels (subs : list subscriber) (ch : nat) :
  Without (map sub_ch subs) ch
  = map sub_ch (filter (fun s => negb (Nat.eqb (sub_ch s) ch)) subs).
Proof.
  unfold Without. induction subs as [|s rest IH]; simpl; [reflexivity|].
  destruct (negb (Nat.eqb (sub_ch s) ch)); simpl; now rewrite IH.
Qed.

Lemma deregister_matches (b : broadcastServer) (ch : nat) :
  registryMatchesGoroutines b ->
  registryMatchesGoroutines (fst (deregister b ch)).
Proof.
  unfold registryMatchesGoroutines, deregister. simpl. intros ->.
  apply Without_channels.
Qed.

Lemma server_step_matches (b : broadcastServer) (st : serverStep) :
  registryMatchesGoroutines b ->
  registryMatchesGoroutines (fst (server_step b st)).
Proof.
  intros Hm. destruct st as [data key|upgraded written|ch written|ch]; simpl.
  - pose proof (sendToClients_channels (mkWsUpdateMessage data key)
                  (clients (srv b)) (subscribers b)) as Hch.
    unfold httpServerExporter_Update.
    destruct (sendToClients (clients (srv b)) (subscribers b) _) as [subs evs].
    unfold registryMatchesGoroutines in *. simpl in *. congruence.
  - unfold httpServerExporter_connectWS.
    destruct upgraded as [conn|]; [|exact Hm].
    assert (Hpark : registryMatchesGoroutines
              (mkBroadcastServer
                 (mkHttpServerExporter (clients (srv b) ++ [madeChans b])
                    (hse_data (srv b)))
                 (subscribers b ++ [mkSubscriber conn (madeChans b) Selecting])
                 (S (madeChans b)))).
    { unfold registryMatchesGoroutines in *. simpl.
      rewrite map_app, Hm. reflexivity. }
    simpl.
    destruct (negb (GoTime.IsZero (Time (hse_data (srv b))))); [|exact Hpark].
    destruct written; [exact Hpark|].
    apply (deregister_matches _ (madeChans b)) in Hpark.
    unfold registryMatchesGoroutines, deregister, Without in *. simpl in *.
    rewrite !filter_app in Hpark. simpl in Hpark.
    rewrite Nat.eqb_refl in Hpark. simpl in Hpark.
    rewrite map_app in Hpark. simpl in Hpark. rewrite !app_nil_r in Hpark.
    rewrite filter_app. simpl. rewrite Nat.eqb_refl. simpl.
    rewrite app_nil_r. exact Hpark.
  - unfold subscriber_write.
    destruct (find _ (subscribers b)) as [[conn c [|msg]]|]; try exact Hm.
    destruct written; [|now apply deregister_matches].
    unfold registryMatchesGoroutines in *. simpl. rewrite Hm, map_map.
    apply map_ext. intros s.
    destruct (Nat.eqb_spec (sub_ch s) ch); simpl; congruence.
  - unfold subscriber_done.
    destruct (canReceive (subscribers b) ch);
      [now apply deregister_matches | exact Hm].
Qed.

Lemma server_run_matches (steps : list serverStep) :
  forall b,
    registryMatchesGoroutines b ->
    registryMatchesGoroutines (server_run b steps).
Proof.
  unfold server_run.
  induction steps as [|st rest IH]; intros b Hm; simpl; [exact Hm|].
  apply IH. now apply server_step_matches.
Qed.

(** X7.  In every state a broadcast server can reach, the registered
    channels are exactly the channels of the goroutines still serving a
    connection, in the order they connected: none is left behind by a
    goroutine that returned, none is registered twice, and each was made by
    an earlier [connectWS]. *)
Theorem registry_is_the_live_connections (port : Z)
    (steps : list serverStep) :
  let b := server_run (newHTTPServerExporter port) steps in
  clients (srv b) = map sub_ch (subscribers b) /\
  NoDup (clients (srv b)) /\
  Forall (fun ch => (ch < madeChans b)%nat) (clients (srv b)).
Proof.
  intros b.
  destruct (server_run_wellFormed steps _ (new_wellFormed port))
    as (Hc & _ & _ & Hlt).
  split; [|split; [exact Hc | now apply Forall_forall]].
  apply (server_run_matches steps (newHTTPServerExporter port)).
  reflexivity.
Qed.

Lemma sendToClients_targets (msg : wsUpdateMessage) (chans : list nat) :
  forall (subs : list subscriber) (c : nat) (m : wsUpdateMessage),
    In (ChanSend c m) (snd (sendToClients chans subs msg)) -> In c chans.
Proof.
  induction chans as [|ch rest IH]; intros subs c m; simpl; [tauto|].
  destruct (canReceive subs ch).
  - specialize (IH (handOver subs ch msg) c m).
    destruct (sendToClients rest (handOver subs ch msg) msg) as [subs' evs].
    simpl in *. intros [Heq|Hin]; [injection Heq as -> _; now left|].
    right. now apply IH.
  - intros Hin. right. now apply (IH subs c m).
Qed.

Lemma deregister_logs_only (b : broadcastServer) (ch c : nat)
    (m : wsUpdateMessage) :
  ~ In (ChanSend c m) (snd (deregister b ch)).
Proof. simpl. intros [Heq|[]]. discriminate Heq. Qed.

Lemma server_step_sends_to_clients (b : broadcastServer) (st : serverStep)
    (c : nat) (m : wsUpdateMessage) :
  In (ChanSend c m) (snd (server_step b st)) -> In c (clients (srv b)).
Proof.
  destruct st as [data key|upgraded written|ch written|ch]; simpl.
  - unfold httpServerExporter_Update.
    pose proof (sendToClients_targets (mkWsUpdateMessage data key)
                  (clients (srv b)) (subscribers b) c m) as Ht.
    now destruct (sendToClients (clients (srv b)) (subscribers b) _).
  - unfold httpServerExporter_connectWS.
    destruct upgraded as [conn|]; simpl;
      [|intros [Heq|[]]; discriminate Heq].
    destruct (negb (GoTime.IsZero (Time (hse_data (srv b))))); simpl;
      [|intros [Heq|[]]; discriminate Heq].
    destruct written; simpl; intros Hin;
      repeat (destruct Hin as [Heq|Hin]; [discriminate Heq|]);
      contradiction.
  - unfold subscriber_write.
    destruct (find _ (subscribers b)) as [[conn c' [|msg]]|]; simpl;
      try tauto.
    destruct written; simpl; intros Hin;
      repeat (destruct Hin as [Heq|Hin]; [discriminate Heq|]);
      contradiction.
  - unfold subscriber_done.
    destruct (canReceive (subscribers b) ch); simpl; [|tauto].
    intros [Heq|[]]. discriminate Heq.
Qed.

(** A channel that was made and is not registered stays so. *)
Lemma server_step_keeps_gone (b : broadcastServer) (st : serverStep)
    (ch : nat) :
  (ch < madeChans b)%nat -> ~ In ch (clients (srv b)) ->
  (ch < madeChans (fst (server_step b st)))%nat /\
  ~ In ch (clients (srv (fst (server_step b st)))).
Proof.
  intros Hlt Hgone.
  assert (Hdereg : forall b' c,
             (ch < madeChans b')%nat -> ~ In ch (clients (srv b')) ->
             (ch < madeChans (fst (deregister b' c)))%nat /\
             ~ In ch (clients (srv (fst (deregister b' c))))).
  { intros b' c Hlt' Hgone'. simpl. split; [exact Hlt'|].
    unfold Without. intros Hin. apply filter_In in Hin as [Hin _].
    contradiction. }
  destruct st as [data key|upgraded written|c written|c]; simpl.
  - pose proof (Update_keeps_srv b data key) as Hsrv.
    unfold httpServerExporter_Update in *.
    destruct (sendToClients (clients (srv b)) (subscribers b) _) as [subs evs].
    simpl in *. now split.
  - unfold httpServerExporter_connectWS.
    destruct upgraded as [conn|]; [|now split].
    assert (Hreg : ~ In ch (clients (srv b) ++ [madeChans b])).
    { intros Hin. apply in_app_or in Hin as [Hin|[Heq|[]]];
        [contradiction | lia]. }
    simpl.
    destruct (negb (GoTime.IsZero (Time (hse_data (srv b))))); simpl;
      [|split; [lia | exact Hreg]].
    destruct written; simpl; [split; [lia | exact Hreg]|].
    split; [lia|]. unfold Without. intros Hin.
    apply filter_In in Hin as [Hin _]. contradiction.
  - unfold subscriber_write.
    destruct (find _ (subscribers b)) as [[conn c' [|msg]]|]; try now split.
    destruct written; [now split|]. now apply Hdereg.
  - unfold subscriber_done.
    destruct (canReceive (subscribers b) c); [now apply Hdereg | now split].
Qed.

Lemma server_trace_spares_gone (steps : list serverStep) :
  forall (b : broadcastServer) (ch : nat) (m : wsUpdateMessage),
    (ch < madeChans b)%nat -> ~ In ch (clients (srv b)) ->
    ~ In (ChanSend ch m) (server_trace b steps).
Proof.
  induction steps as [|st rest IH]; intros b ch m Hlt Hgone; simpl; [tauto|].
  pose proof (server_step_sends_to_clients b st ch m) as Hsend.
  destruct (server_step_keeps_gone b st ch Hlt Hgone) as [Hlt' Hgone'].
  destruct (server_step b st) as [b' evs]. simpl in *.
  intros Hin. apply in_app_or in Hin as [Hin|Hin].
  - apply Hgone. now apply Hsend.
  - now apply (IH b' ch m Hlt' Hgone').
Qed.

(** X8.  Once the deferred deregistration of a connection has run, no later
    [Update] sends on its channel, whatever the server does afterwards:
    channels are not reused and a deregistered one never returns to the
    registry. *)
Theorem no_send_after_deregistration (port : Z) (before : list serverStep)
    (ch : nat) (after : list serverStep) (m : wsUpdateMessage) :
  let b := server_run (newHTTPServerExporter port) before in
  In ch (clients (srv b)) ->
  ~ In (ChanSend ch m) (server_trace (fst (deregister b ch)) after).
Proof.
  intros b Hreg.
  destruct (server_run_wellFormed before _ (new_wellFormed port))
    as (_ & _ & _ & Hlt).
  apply server_trace_spares_gone.
  - simpl. now apply Hlt.
  - simpl. unfold Without. intros Hin. apply filter_In in Hin as [_ Hne].
    now rewrite Nat.eqb_refl in Hne.
Qed.

Lemma no_send_after_deregistration_witness :
  let b := server_run (newHTTPServerExporter 8080)
             [DoConnectWS (Some 10%nat) true; DoConnectWS (Some 11%nat) true] in
  let m := mkWsUpdateMessage (record_at 1700000000 80) "heartRate" in
  ~ In (ChanSend 0%nat m)
       (server_trace (fst (deregister b 0%nat))
          [DoUpdate (record_at 1700000000 80) "heartRate"])
  /\ server_trace (fst (deregister b 0%nat))
       [DoUpdate (record_at 1700000000 80) "heartRate"]
     = [ChanSend 1%nat m].
Proof.
  split; [|reflexivity].
  apply (no_send_after_deregistration 8080
           [DoConnectWS (Some 10%nat) true; DoConnectWS (Some 11%nat) true]
           0%nat [DoUpdate (record_at 1700000000 80) "heartRate"]).
  simpl. left. reflexivity.
Defined.




(** ** The signal sender: the range of the value *)

Lemma float64_same_eq (x y : float64) : float64_same x y = true -> x = y.
Proof.
  destruct x as [a|a| |s m e], y as [b|b| |s' m' e']; simpl;
    try discriminate; try reflexivity.
  - intros Heq. apply Bool.eqb_prop in Heq. now subst.
  - intros Heq. apply Bool.eqb_prop in Heq. now subst.
  - intros Heq. apply andb_true_iff in Heq as [Heq He].
    apply andb_true_iff in Heq as [Hs Hm].
    apply Bool.eqb_prop in Hs. apply Pos.eqb_eq in Hm. apply Z.eqb_eq in He.
    now subst.
Qed.

Lemma normalized_below_256 :
  forallb (fun k =>
             let value := Float64.div (Float64.of_int (Z.of_nat k))
                                      (Float64.of_int 256) in
             float64_same value (Float64.of_dyadic (Z.of_nat k) (-8))
             && SFleb (S754_zero false) value
             && SFltb value (Float64.of_int 1))
          (seq 0 256)
  = true.
Proof. vm_compute. reflexivity. Qed.

(** X10.  For a record whose heart rate is at least 0 and below 256 the
    signal sender sends the exact quotient heartRate/256, a number that is
    at least 0 and less than 1; nothing is lost to rounding. *)
Theorem osc_value_is_exact_below_256
    (osc_Client_Send : oscClient -> oscMessage -> option error)
    (sendIP : string) (sendPort : Z) (addr : string) (data : healthData) :
  0 <= HeartRate data < 256 ->
  let o := newOSCExporter sendIP sendPort addr in
  let value := Float64.of_dyadic (HeartRate data) (-8) in
  snd (fst (oscExporter_Update osc_Client_Send o data "heartRate"))
  = [OSCSend addr [value]] /\
  SFleb (S754_zero false) value = true /\
  SFltb value (Float64.of_int 1) = true.
Proof.
  intros Hrange o value.
  pose proof normalized_below_256 as Hall.
  rewrite forallb_forall in Hall.
  specialize (Hall (Z.to_nat (HeartRate data))).
  rewrite Z2Nat.id in Hall by lia.
  assert (Hin : In (Z.to_nat (HeartRate data)) (seq 0 256))
    by (apply in_seq; lia).
  specialize (Hall Hin). cbv zeta in Hall.
  apply andb_true_iff in Hall as [Hall Hlt].
  apply andb_true_iff in Hall as [Hsame Hle].
  apply float64_same_eq in Hsame.
  subst value. rewrite <- Hsame.
  split; [reflexivity|]. split; assumption.
Qed.

Lemma osc_value_is_exact_below_256_witness :
  snd (fst (oscExporter_Update osc_Send_ok
              (newOSCExporter "127.0.0.1" 9000 "/avatar/parameters/HeartRate")
              (record_at 1700000000 191) "heartRate"))
  = [OSCSend "/avatar/parameters/HeartRate" [Float64.of_dyadic 191 (-8)]].
Proof.
  apply (osc_value_is_exact_below_256 osc_Send_ok "127.0.0.1" 9000
           "/avatar/parameters/HeartRate" (record_at 1700000000 191)).
  simpl. split; [discriminate | reflexivity].
Defined.

(** ** The metrics endpoint: what is served and when *)

Lemma Since_in_window (now t : GoTime.time) :
  (freshnessWindow <? GoTime.Since now t)
  = (30 * GoTime.Second <? now - t).
Proof.
  unfold freshnessWindow, GoTime.Since, Int64.saturate, Int64.min_int,
    Int64.max_int, GoTime.Second.
  change (2 ^ 63) with 9223372036854775808.
  repeat match goal with
         | |- context [if Z.ltb ?a ?b then _ else _] =>
             destruct (Z.ltb_spec a b)
         end;
    repeat match goal with
           | |- context [Z.ltb ?a ?b] => destruct (Z.ltb_spec a b)
           end; try reflexivity; lia.
Qed.

(** X11.  A scrape has an empty body exactly when the stored time is the
    zero value or lies more than 30 seconds before the clock of the scrape;
    the saturation of [time.Since] changes nothing.  So a record exactly 30
    seconds old is still served, one a nanosecond older is not, and a record
    stamped later than the clock is served.  This holds of every request,
    whatever Content-Type the library negotiates for it. *)
Theorem metrics_empty_iff_zero_or_stale (p : prometheusExporter)
    (now : GoTime.time) (Negotiate : string -> string) (accept : string) :
  let t := Time (prom_data p) in
  (Body (prometheusExporter_ServeHTTP Negotiate p accept now) = NoBody <->
   t = 0 \/ 30 * GoTime.Second < now - t) /\
  (Body (prometheusExporter_ServeHTTP Negotiate p accept now) <> NoBody ->
   Body (prometheusExporter_ServeHTTP Negotiate p accept now)
   = MetricsBody (registry_Gather p)).
Proof.
  intros t. unfold prometheusExporter_ServeHTTP. fold t.
  rewrite Since_in_window. unfold GoTime.IsZero.
  destruct (Z.eqb_spec t 0) as [Hz|Hnz]; cbn [orb].
  - cbn [Body]. split.
    + split; [intros _; now left | intros _; reflexivity].
    + intros Hne. now contradiction Hne.
  - destruct (Z.ltb_spec (30 * GoTime.Second) (now - t)) as [Hst|Hfr];
      cbn [Body].
    + split.
      * split; [intros _; now right | intros _; reflexivity].
      * intros Hne. now contradiction Hne.
    + split; [|intros _; reflexivity].
      split; [discriminate|]. intros [Hz|Hst]; [contradiction | lia].
Qed.

Lemma metrics_empty_iff_zero_or_stale_witness :
  let p := mkPrometheusExporter (record_at 63900000000000000000 80) in
  Body (prometheusExporter_ServeHTTP Negotiate_text p ""
          (63900000000000000000 + 30000000000))
  = MetricsBody (registry_Gather p)
  /\ Body (prometheusExporter_ServeHTTP Negotiate_text p ""
             (63900000000000000000 + 30000000001))
     = NoBody
  /\ Body (prometheusExporter_ServeHTTP Negotiate_text p ""
             (63900000000000000000 - 3600000000000))
     = MetricsBody (registry_Gather p).
Proof.
  intros p.
  destruct (metrics_empty_iff_zero_or_stale p
              (63900000000000000000 + 30000000000) Negotiate_text "")
    as [_ Hedge].
  destruct (metrics_empty_iff_zero_or_stale p
              (63900000000000000000 + 30000000001) Negotiate_text "")
    as [[_ Hpast] _].
  destruct (metrics_empty_iff_zero_or_stale p
              (63900000000000000000 - 3600000000000) Negotiate_text "")
    as [_ Hahead].
  split; [apply Hedge; discriminate|].
  split; [apply Hpast; right; reflexivity|].
  apply Hahead. discriminate.
Defined.

(** X12.  While the record is fresh a scrape shows all five metrics, each
    with the value the record of the latest [Update] has for it, whichever
    key that [Update] named: heart_rate and speed as gauges, step_count,
    distance_traveled and calories as counters, sorted by name.  The
    Content-Type of that answer is not one this program sets: it is the
    one the library negotiates from the Accept header of the request. *)
Theorem metrics_show_the_latest_record (port : Z)
    (earlier : list (healthData * string)) (d : healthData) (key : string)
    (now : GoTime.time) (Negotiate : string -> string) (accept : string) :
  Time d <> 0 ->
  now - Time d <= 30 * GoTime.Second ->
  let p := prometheus_run port (earlier ++ [(d, key)]) in
  prometheusExporter_ServeHTTP Negotiate p accept now
  = mkResponse 200 (Some (Negotiate accept))
      (MetricsBody
         [mkMetricFamily "calories" "Current calories burned" Counter
            (Float64.of_int (Calories d));
          mkMetricFamily "distance_traveled"
            "Current distance traveled in meters" Counter (DistanceTraveled d);
          mkMetricFamily "heart_rate" "Current heart rate in beats per minute"
            Gauge (Float64.of_int (HeartRate d));
          mkMetricFamily "speed" "Current speed in meters per second" Gauge
            (Speed d);
          mkMetricFamily "step_count" "Current step count" Counter
            (Float64.of_int (StepCount d))]).
Proof.
  intros Hnz Hfresh p.
  assert (Hdata : prom_data p = d).
  { subst p. unfold prometheus_run. rewrite fold_left_app. reflexivity. }
  unfold prometheusExporter_ServeHTTP. rewrite Since_in_window, Hdata.
  unfold GoTime.IsZero.
  destruct (Z.eqb_spec (Time d) 0) as [Hz|_]; [contradiction|].
  destruct (Z.ltb_spec (30 * GoTime.Second) (now - Time d)) as [Hst|_];
    [lia|].
  simpl. unfold registry_Gather, prom_calories, prom_distanceTraveled,
    prom_heartRate, prom_speed, prom_stepCount. now rewrite Hdata.
Qed.

Lemma metrics_show_the_latest_record_witness :
  let d := mkHealthData 63900000000000000000 80 120
             (Float64.of_dyadic 487 (-3)) (Float64.of_dyadic 7 (-3)) 7 in
  metricValue "step_count"
    (prometheusExporter_ServeHTTP Negotiate_text
       (prometheus_run 9090
          ([(record_at 63890000000000000000 75, "heartRate")]
           ++ [(d, "calories")]))
       "" 63900000010000000000)
  = Some (Float64.of_int 120).
Proof.
  intros d.
  rewrite (metrics_show_the_latest_record 9090
             [(record_at 63890000000000000000 75, "heartRate")] d "calories"
             63900000010000000000 Negotiate_text "").
  - reflexivity.
  - discriminate.
  - discriminate.
Defined.

(** ** version.go *)

Lemma append_nil_inv (a b : string) : (a ++ b)%string = "" -> a = "" /\ b = "".
Proof. destruct a; simpl; [now split | discriminate]. Qed.

Lemma append_same_inv (a b : string) : (a ++ b)%string = a -> b = "".
Proof.
  induction a as [|c a IH]; simpl; [tauto|].
  intros Heq. injection Heq as Heq. now apply IH.
Qed.

(** X13.  [GetFormattedVersion] always begins with the version.  It is the
    bare version exactly when there is no revision, the tree is not dirty
    and there is no build time; in every other case the revision, "+dirty"
    and the build time follow in parentheses. *)
Theorem formatted_version_shape (g : versionVars) :
  let meta :=
    (revision g ++ (if buildDirty g then "+dirty" else "")
     ++ (if String.eqb (buildTime g) "" then ""
         else ", " ++ buildTime g))%string in
  String.prefix (version g) (GetFormattedVersion g) = true /\
  (GetFormattedVersion g = version g <->
   revision g = "" /\ buildDirty g = false /\ buildTime g = "") /\
  (GetFormattedVersion g <> version g ->
   GetFormattedVersion g = (version g ++ " (" ++ meta ++ ")")%string).
Proof.
  intros meta.
  assert (Hmeta : GetFormattedVersion g
                  = if String.eqb meta "" then version g
                    else (version g ++ " (" ++ meta ++ ")")%string).
  { unfold GetFormattedVersion, Ternary. subst meta.
    now destruct (buildDirty g), (String.eqb (buildTime g) ""). }
  assert (Hpre : forall a b, String.prefix a (a ++ b)%string = true).
  { intros a b. induction a as [|c a IH]; simpl; [now destruct b|].
    destruct (ascii_dec c c); [exact IH | contradiction]. }
  assert (Hempty : meta = ""
                   <-> revision g = "" /\ buildDirty g = false
                       /\ buildTime g = "").
  { subst meta. split.
    - intros Heq. apply append_nil_inv in Heq as [Hr Heq].
      apply append_nil_inv in Heq as [Hd Ht].
      destruct (buildDirty g); [discriminate Hd|].
      destruct (String.eqb_spec (buildTime g) ""); [auto | discriminate Ht].
    - intros (-> & -> & ->). reflexivity. }
  rewrite Hmeta.
  destruct (String.eqb_spec meta "") as [Hm|Hm].
  - split.
    + clear. induction (version g) as [|c v IH]; simpl; [reflexivity|].
      destruct (ascii_dec c c); [exact IH | contradiction].
    + split; [|intros Hne; now contradiction Hne].
      split; [intros _; now apply Hempty | reflexivity].
  - split; [apply Hpre|]. split; [|reflexivity].
    split.
    + intros Heq. apply append_same_inv in Heq. discriminate Heq.
    + intros Hall. exfalso. apply Hm. now apply Hempty.
Qed.

Lemma init_settings_snoc (settings : list BuildSetting) (s : BuildSetting) :
  forall g : versionVars,
    init_settings g (settings ++ [s])
    = match init_settings g settings with
      | Some g' => init_setting g' s
      | None => None
      end.
Proof.
  induction settings as [|x rest IH]; intros g; simpl.
  - now destruct (init_setting g s).
  - destruct (init_setting g x) as [g'|]; [apply IH | reflexivity].
Qed.

Lemma slice_to_fails (s : string) (n : nat) :
  slice_to s n = None <-> (String.length s < n)%nat.
Proof.
  unfold slice_to. destruct (Nat.ltb_spec (String.length s) n);
    split; try discriminate; try lia; reflexivity.
Qed.

Lemma init_setting_fails (g : versionVars) (s : BuildSetting) :
  init_setting g s = None
  <-> Key s = "vcs.revision" /\ (String.length (Value s) < 7)%nat.
Proof.
  unfold init_setting.
  destruct (String.eqb_spec (Key s) "vcs.revision") as [Hk|Hk].
  - destruct (slice_to (Value s) 7) as [r|] eqn:Hsl.
    + split; [discriminate|]. intros [_ Hlen].
      apply slice_to_fails in Hlen. congruence.
    + split; [|reflexivity]. intros _. split; [exact Hk|].
      now apply slice_to_fails.
  - split; [discriminate|]. intros [Hk' _]. contradiction.
Qed.

(** X14.  [init] panics exactly when the build information is there and one
    of its settings is a "vcs.revision" shorter than seven bytes; without
    build information it leaves the variables as they are. *)
Theorem init_panics_on_short_revision (info : BuildInfo) (g : versionVars) :
  (version_init (Some info) g = None <->
   exists s, In s (Settings info) /\ Key s = "vcs.revision" /\
             (String.length (Value s) < 7)%nat) /\
  version_init None g = Some g.
Proof.
  split; [|reflexivity]. unfold version_init.
  generalize (if String.eqb (version g) ""
              then mkVersionVars (Main_Version info) (revision g)
                     (buildDirty g) (buildTime g)
              else g) as g0.
  induction (Settings info) as [|x rest IH]; intros g0; simpl.
  - split; [discriminate|]. intros (s & [] & _).
  - destruct (init_setting g0 x) as [g1|] eqn:Hx.
    + rewrite IH. split.
      * intros (s & Hin & Hk & Hlen). exists s. auto.
      * intros (s & [->|Hin] & Hk & Hlen); [|exists s; auto].
        exfalso. assert (Hnone : init_setting g0 s = None)
          by (apply init_setting_fails; auto). congruence.
    + split; [|reflexivity]. intros _.
      apply init_setting_fails in Hx as [Hk Hlen]. exists x. auto.
Qed.

Lemma lastSetting_snoc (key : string) (settings : list BuildSetting)
    (s : BuildSetting) :
  lastSetting key (settings ++ [s])
  = if String.eqb (Key s) key then Some (Value s)
    else lastSetting key settings.
Proof.
  unfold lastSetting. rewrite rev_app_distr. simpl.
  now destruct (String.eqb (Key s) key).
Qed.

Lemma init_settings_latest (settings : list BuildSetting) :
  forall g g' : versionVars,
    init_settings g settings = Some g' ->
    version g' = version g /\
    revision g' = match lastSetting "vcs.revision" settings with
                  | Some v => substring 0 7 v
                  | None => revision g
                  end /\
    buildDirty g' = match lastSetting "vcs.modified" settings with
                    | Some v => String.eqb v "true"
                    | None => buildDirty g
                    end /\
    buildTime g' = match lastSetting "vcs.time" settings with
                   | Some v => v
                   | None => buildTime g
                   end.
Proof.
  induction settings as [|s settings IH] using rev_ind; intros g g' Hrun.
  - injection Hrun as <-. repeat split.
  - rewrite init_settings_snoc in Hrun.
    destruct (init_settings g settings) as [g1|] eqn:Hprev; [|discriminate].
    destruct (IH g g1 Hprev) as (Hv & Hr & Hd & Ht).
    rewrite !lastSetting_snoc. unfold init_setting, slice_to in Hrun.
    destruct (String.eqb_spec (Key s) "vcs.revision") as [Hk|_].
    + rewrite Hk in *. cbn [String.eqb Ascii.eqb Bool.eqb] in *.
      destruct (Nat.ltb (String.length (Value s)) 7); [discriminate|].
      injection Hrun as <-. simpl. auto.
    + destruct (String.eqb_spec (Key s) "vcs.modified") as [Hk|_].
      * rewrite Hk in *. cbn [String.eqb Ascii.eqb Bool.eqb] in *.
        injection Hrun as <-. simpl. auto.
      * destruct (String.eqb (Key s) "vcs.time");
          injection Hrun as <-; simpl; auto.
Qed.

(** X15.  When [init] returns, a version set at link time is kept and an
    empty one is replaced by the module version; the revision is the first
    seven bytes of the last "vcs.revision" setting, [buildDirty] tells whether
    the last "vcs.modified" setting is "true", and the build time is the last
    "vcs.time" setting; a variable whose setting is absent keeps its value. *)
Theorem init_reads_the_last_settings (info : BuildInfo) (g g' : versionVars) :
  version_init (Some info) g = Some g' ->
  version g' = (if String.eqb (version g) "" then Main_Version info
                else version g) /\
  revision g' = match lastSetting "vcs.revision" (Settings info) with
                | Some v => substring 0 7 v
                | None => revision g
                end /\
  buildDirty g' = match lastSetting "vcs.modified" (Settings info) with
                  | Some v => String.eqb v "true"
                  | None => buildDirty g
                  end /\
  buildTime g' = match lastSetting "vcs.time" (Settings info) with
                 | Some v => v
                 | None => buildTime g
                 end.
Proof.
  unfold version_init. intros Hrun.
  apply init_settings_latest in Hrun as (Hv & Hr & Hd & Ht).
  rewrite Hv, Hr, Hd, Ht.
  now destruct (String.eqb (version g) "").
Qed.

Lemma init_reads_the_last_settings_witness :
  let info :=
    mkBuildInfo "v1.2.0"
      [mkBuildSetting "vcs" "git";
       mkBuildSetting "vcs.revision" "0123456789abcdef0123456789abcdef01234567";
       mkBuildSetting "vcs.time" "2025-04-01T10:00:00Z";
       mkBuildSetting "vcs.modified" "true"] in
  exists g',
    version_init (Some info) (mkVersionVars "" "" false "") = Some g' /\
    GetFormattedVersion g' = "v1.2.0 (0123456+dirty, 2025-04-01T10:00:00Z)".
Proof.
  intros info.
  assert (Hrun : version_init (Some info) (mkVersionVars "" "" false "")
                 = Some (mkVersionVars "v1.2.0" "0123456" true
                           "2025-04-01T10:00:00Z"))
    by (vm_compute; reflexivity).
  exists (mkVersionVars "v1.2.0" "0123456" true "2025-04-01T10:00:00Z").
  split; [exact Hrun|].
  destruct (init_reads_the_last_settings info (mkVersionVars "" "" false "")
              _ Hrun) as (Hv & Hr & Hd & Ht).
  vm_compute. reflexivity.
Defined.

(** ** The single-metric form *)

Lemma CutPrefix_spec (prefix : string) :
  forall s after : string,
    CutPrefix s prefix = Some after <-> s = (prefix ++ after)%string.
Proof.
  induction prefix as [|p prefix IH]; intros s after.
  - destruct s; simpl;
      (split; [intros Heq; now injection Heq | intros ->; reflexivity]).
  - destruct s as [|a s]; simpl; [split; discriminate|].
    destruct (Ascii.eqb_spec a p) as [->|Hne].
    + rewrite IH. split; [intros ->; reflexivity|].
      intros Heq. now injection Heq.
    + split; [discriminate|]. intros Heq. injection Heq as Ha _.
      contradiction.
Qed.

Module SingleMetricFacts.
Import SingleMetric.

(** The two tests of the handlers pass exactly on "heartRate:" followed by
    a string [Atoi] accepts. *)
Lemma accepted_payload (data : string) (rate : Z) :
  HasPrefix data hdsDataPrefix = true /\
  GoStrconv.Atoi (TrimPrefix data hdsDataPrefix) = Some rate
  <-> exists rateStr,
        data = ("heartRate:" ++ rateStr)%string /\
        GoStrconv.Atoi rateStr = Some rate.
Proof.
  unfold HasPrefix, TrimPrefix. split.
  - destruct (CutPrefix data hdsDataPrefix) as [after|] eqn:Hcut;
      [|intros [Hno _]; discriminate Hno].
    intros [_ Hrate]. exists after. split; [|exact Hrate].
    now apply CutPrefix_spec in Hcut.
  - intros (rateStr & Hdata & Hrate).
    assert (Hcut : CutPrefix data hdsDataPrefix = Some rateStr)
      by (apply CutPrefix_spec; exact Hdata).
    rewrite Hcut. now split.
Qed.

Lemma putData_inv (data data' : string) :
  putData data = putData data' -> data = data'.
Proof. unfold putData. congruence. Qed.

Section Receiver.
Context {E : Type} `{exporter E}.

Lemma sendToExporters_each (exporters : list E) (clock : nat -> GoTime.time)
    (rate : Z) :
  forall (first i : nat) (s : E),
    nth_error exporters i = Some s ->
    nth_error (fst (sendToExporters exporters clock first rate)) i
    = Some (fst (fst (Send s (clock (first + i)%nat) rate))).
Proof.
  induction exporters as [|x rest IH]; intros first i s Hi;
    [destruct i; discriminate Hi|].
  cbn [sendToExporters].
  destruct (Send x (clock first) rate) as [[x' evs] err] eqn:Hx.
  specialize (IH (S first)).
  destruct (sendToExporters rest clock (S first) rate) as [rest' evs'].
  destruct i as [|i]; cbn [nth_error fst] in *.
  - injection Hi as <-. rewrite Nat.add_0_r, Hx. reflexivity.
  - rewrite (IH i s Hi). now rewrite Nat.add_succ_r.
Qed.

Lemma sendToExporters_length (exporters : list E)
    (clock : nat -> GoTime.time) (rate : Z) :
  forall first : nat,
    List.length (fst (sendToExporters exporters clock first rate))
    = List.length exporters.
Proof.
  induction exporters as [|x rest IH]; intros first; [reflexivity|].
  cbn [sendToExporters].
  destruct (Send x (clock first) rate) as [[x' evs] err].
  specialize (IH (S first)).
  destruct (sendToExporters rest clock (S first) rate) as [rest' evs'].
  cbn [fst List.length] in *. now rewrite IH.
Qed.

(** The handler on a payload that passes both tests, and on one that does
    not. *)
Lemma dataHandler_cases (h : hdsReceiver) (clock : nat -> GoTime.time)
    (data : string) :
  (forall rate,
     HasPrefix data hdsDataPrefix = true ->
     GoStrconv.Atoi (TrimPrefix data hdsDataPrefix) = Some rate ->
     hdsReceiver_dataHandler h clock (putData data)
     = let '(exporters, sent) :=
         sendToExporters (hds_exporters h) clock 0 rate in
       (mkHdsReceiver exporters, mkResponse StatusOK None NoBody,
        Log LevelInfo "Received req" :: sent)) /\
  ((forall rate,
      ~ (HasPrefix data hdsDataPrefix = true /\
         GoStrconv.Atoi (TrimPrefix data hdsDataPrefix) = Some rate)) ->
   fst (hdsReceiver_dataHandler h clock (putData data))
   = (h, http_Error "Invalid data format" StatusBadRequest)).
Proof.
  unfold hdsReceiver_dataHandler, putData. cbn [req_Data]. split.
  - intros rate -> ->. reflexivity.
  - intros Hno. destruct (HasPrefix data hdsDataPrefix); [|reflexivity].
    cbn [negb].
    destruct (GoStrconv.Atoi (TrimPrefix data hdsDataPrefix)) as [rate|];
      [|reflexivity].
    exfalso. apply (Hno rate). now split.
Qed.

(** X16.  The single-metric push handler answers only 200 or 400.  It
    answers 200 exactly when the body decodes to "heartRate:" followed by a
    string [strconv.Atoi] accepts; whenever it answers 400 the receiver and
    its exporters are as before. *)
Theorem single_metric_push_status (h : hdsReceiver)
    (clock : nat -> GoTime.time) (r : decodedBody) :
  let '(h', resp, _) := hdsReceiver_dataHandler h clock r in
  (StatusCode resp = 200 \/ StatusCode resp = 400) /\
  (StatusCode resp = 200 <->
   exists rateStr rate,
     r = putData ("heartRate:" ++ rateStr)%string /\
     GoStrconv.Atoi rateStr = Some rate) /\
  (StatusCode resp = 400 -> h' = h).
Proof.
  destruct r as [err|[data]].
  - cbn. split; [now right|]. split; [|reflexivity].
    split; [discriminate|]. intros (rs & rate & Hr & _). discriminate Hr.
  - change (Decoded (mkHdsRequest data)) with (putData data).
    destruct (dataHandler_cases h clock data) as [Hyes Hno].
    destruct (HasPrefix data hdsDataPrefix) eqn:Hpre;
      [destruct (GoStrconv.Atoi (TrimPrefix data hdsDataPrefix))
         as [rate|] eqn:Hrate|].
    + rewrite (Hyes rate eq_refl eq_refl).
      destruct (sendToExporters (hds_exporters h) clock 0 rate)
        as [exporters sent].
      cbn [StatusCode]. split; [now left|]. split; [|discriminate].
      split; [|reflexivity]. intros _.
      destruct (proj1 (accepted_payload data rate) (conj Hpre Hrate))
        as (rs & -> & Hok).
      now exists rs, rate.
    + assert (Hrej : forall rate,
                 ~ (true = true /\ @None Z = Some rate))
        by (intros rate [_ Hx]; discriminate Hx).
      specialize (Hno Hrej).
      destruct (hdsReceiver_dataHandler h clock (putData data))
        as [[h' resp] evs].
      cbn [fst] in Hno. injection Hno as -> ->.
      cbn [StatusCode http_Error]. split; [now right|].
      split; [|reflexivity]. split; [discriminate|].
      intros (rs & rate & Hr & Hok). exfalso.
      apply putData_inv in Hr.
      assert (Hacc : HasPrefix data hdsDataPrefix = true /\
                     GoStrconv.Atoi (TrimPrefix data hdsDataPrefix)
                     = Some rate)
        by (apply accepted_payload; now exists rs).
      destruct Hacc as [_ Hacc]. congruence.
    + assert (Hrej : forall rate,
                 ~ (false = true /\
                    GoStrconv.Atoi (TrimPrefix data hdsDataPrefix)
                    = Some rate))
        by (intros rate [Hx _]; discriminate Hx).
      specialize (Hno Hrej).
      destruct (hdsReceiver_dataHandler h clock (putData data))
        as [[h' resp] evs].
      cbn [fst] in Hno. injection Hno as -> ->.
      cbn [StatusCode http_Error]. split; [now right|].
      split; [|reflexivity]. split; [discriminate|].
      intros (rs & rate & Hr & Hok). exfalso.
      apply putData_inv in Hr.
      assert (Hacc : HasPrefix data hdsDataPrefix = true /\
                     GoStrconv.Atoi (TrimPrefix data hdsDataPrefix)
                     = Some rate)
        by (apply accepted_payload; now exists rs).
      destruct Hacc as [Hacc _]. congruence.
Qed.

(** X17.  On a payload "heartRate:" followed by an integer the single-metric
    handler answers 200 and calls [Send] with that integer on every exporter,
    in the order of the list, each with its own reading of the clock; an
    exporter that fails does not keep the later ones from being called. *)
Theorem single_metric_push_sends_to_all (h : hdsReceiver)
    (clock : nat -> GoTime.time) (rateStr : string) (rate : Z) :
  GoStrconv.Atoi rateStr = Some rate ->
  let '(h', resp, _) :=
    hdsReceiver_dataHandler h clock
      (putData ("heartRate:" ++ rateStr)%string) in
  StatusCode resp = 200 /\
  List.length (hds_exporters h') = List.length (hds_exporters h) /\
  forall i s, nth_error (hds_exporters h) i = Some s ->
    nth_error (hds_exporters h') i
    = Some (fst (fst (Send s (clock i) rate))).
Proof.
  intros Hrate.
  assert (Hacc : HasPrefix ("heartRate:" ++ rateStr)%string hdsDataPrefix
                 = true /\
                 GoStrconv.Atoi
                   (TrimPrefix ("heartRate:" ++ rateStr)%string hdsDataPrefix)
                 = Some rate)
    by (apply accepted_payload; now exists rateStr).
  destruct Hacc as [Hpre Hok].
  destruct (dataHandler_cases h clock ("heartRate:" ++ rateStr)%string)
    as [Hyes _].
  rewrite (Hyes rate Hpre Hok).
  pose proof (sendToExporters_each (hds_exporters h) clock rate 0) as Heach.
  pose proof (sendToExporters_length (hds_exporters h) clock rate 0) as Hlen.
  destruct (sendToExporters (hds_exporters h) clock 0 rate)
    as [exporters sent].
  cbn [fst hds_exporters StatusCode] in *.
  split; [reflexivity|]. split; [exact Hlen|]. exact Heach.
Qed.
End Receiver.

Lemma single_metric_push_status_witness :
  StatusCode
    (snd (fst (hdsReceiver_dataHandler
                 (mkHdsReceiver [newPrometheusExporter 9090])
                 (fun _ => 63900000000000000000)
                 (putData "heartRate:80"))))
  = 200.
Proof.
  pose proof (single_metric_push_status
                (mkHdsReceiver [newPrometheusExporter 9090])
                (fun _ => 63900000000000000000) (putData "heartRate:80"))
    as Hcases.
  destruct (hdsReceiver_dataHandler
              (mkHdsReceiver [newPrometheusExporter 9090])
              (fun _ => 63900000000000000000) (putData "heartRate:80"))
    as [[h' resp] evs].
  destruct Hcases as (_ & Hok & _). apply Hok.
  exists "80", 80. split; reflexivity.
Defined.

Lemma single_metric_push_sends_to_all_witness :
  let h := mkHdsReceiver [newPrometheusExporter 9090;
                          newPrometheusExporter 9091] in
  let clock := fun i => 63900000000000000000 + Z.of_nat i in
  let '(h', resp, _) :=
    hdsReceiver_dataHandler h clock (putData ("heartRate:" ++ "-7")%string) in
  StatusCode resp = 200 /\
  nth_error (hds_exporters h') 1
  = Some (mkPrometheusExporter (Float64.of_int (-7)) 63900000000000000001).
Proof.
  intros h clock.
  pose proof (single_metric_push_sends_to_all h clock "-7" (-7) eq_refl)
    as Hpush.
  destruct (hdsReceiver_dataHandler h clock
              (putData ("heartRate:" ++ "-7")%string)) as [[h' resp] evs].
  destruct Hpush as (Hstatus & _ & Heach).
  split; [exact Hstatus|].
  apply (Heach 1%nat (newPrometheusExporter 9091)). reflexivity.
Defined.

Section Exporters.
Variable Format_RFC3339 : GoTime.time -> string.
Variable osc_Client_Send : oscClient -> string -> list float32 -> option error.
Variable expfmt_Negotiate : string -> string.

Lemma Send_stores (b : broadcastServer) (now : GoTime.time) (rate : Z) :
  let b' := fst (fst (httpServerExporter_Send Format_RFC3339 b now rate)) in
  heartRate (srv b') = rate /\
  receivedTime (srv b') = now /\
  clients (srv b') = clients (srv b).
Proof.
  unfold httpServerExporter_Send. cbn [clients heartRate receivedTime].
  destruct (sendToClients (clients (srv b)) (subscribers b) _) as [subs evs].
  repeat split.
Qed.

Lemma server_sends_last (sends : list (GoTime.time * Z)) :
  forall b : broadcastServer,
    let b' := server_sends Format_RFC3339 b sends in
    (heartRate (srv b'), receivedTime (srv b'))
    = match rev sends with
      | [] => (heartRate (srv b), receivedTime (srv b))
      | (t, rate) :: _ => (rate, t)
      end.
Proof.
  induction sends as [|[t rate] sends IH] using rev_ind; intros b;
    [reflexivity|].
  unfold server_sends. rewrite fold_left_app, rev_app_distr.
  cbn [fold_left rev app fst snd].
  destruct (Send_stores (fold_left
                           (fun b s =>
                              fst (fst (httpServerExporter_Send Format_RFC3339
                                          b (fst s) (snd s)))) sends b)
                        t rate) as (Hr & Ht & _).
  now rewrite Hr, Ht.
Qed.

(** X18.  In the single-metric form [getLatest] answers with what the last
    [Send] stored: 404 before any [Send], afterwards 200 with the rate of the
    last [Send] and the formatted time of that call.  (A [Send] at the zero
    instant of the clock would leave it at 404.) *)
Theorem getLatest_returns_the_last_send (port : Z)
    (sends : list (GoTime.time * Z)) :
  let b := server_sends Format_RFC3339 (newHTTPServerExporter port) sends in
  httpServerExporter_getLatest Format_RFC3339 (srv b)
  = match rev sends with
    | [] => mkResponse 404 None NoBody
    | (t, rate) :: _ =>
        if t =? 0 then mkResponse 404 None NoBody
        else mkResponse 200 (Some "application/json")
               (JSONBody (mkHttpSenderMessage rate (Format_RFC3339 t)))
    end.
Proof.
  intros b. unfold httpServerExporter_getLatest.
  pose proof (server_sends_last sends (newHTTPServerExporter port)) as Hlast.
  cbv zeta in Hlast. fold b in Hlast.
  destruct (rev sends) as [|[t rate] rest]; injection Hlast as -> ->;
    reflexivity.
Qed.

(** X19.  In the single-metric form a client that connects is sent the last
    rate at once: after a [Send] the first thing [connectWS] writes to the
    new connection is the message with the rate and the time of the last
    [Send]; before any [Send] it writes no frame. *)
Theorem connectWS_replays_the_last_send (port : Z)
    (sends : list (GoTime.time * Z)) (conn : nat) :
  let b := server_sends Format_RFC3339 (newHTTPServerExporter port) sends in
  snd (httpServerExporter_connectWS Format_RFC3339 b (Some conn) true)
  = Log LevelInfo "New WebSocket connection"
    :: match rev sends with
       | [] => []
       | (t, rate) :: _ =>
           if t =? 0 then []
           else [ConnWriteJSON conn
                   (mkHttpSenderMessage rate (Format_RFC3339 t))]
       end.
Proof.
  intros b. unfold httpServerExporter_connectWS.
  cbn [heartRate receivedTime srv].
  pose proof (server_sends_last sends (newHTTPServerExporter port)) as Hlast.
  cbv zeta in Hlast. fold b in Hlast.
  destruct (rev sends) as [|[t rate] rest]; injection Hlast as -> ->.
  - reflexivity.
  - unfold GoTime.IsZero. now destruct (t =? 0).
Qed.

Lemma prometheus_sends_last (sends : list (GoTime.time * Z)) :
  forall p : prometheusExporter,
    prometheus_sends p sends
    = match rev sends with
      | [] => p
      | (t, rate) :: _ => mkPrometheusExporter (Float64.of_int rate) t
      end.
Proof.
  induction sends as [|[t rate] sends IH] using rev_ind; intros p;
    [reflexivity|].
  unfold prometheus_sends. rewrite fold_left_app, rev_app_distr.
  reflexivity.
Qed.

(** X20.  The single-metric metrics endpoint serves the rate of the last
    [Send] as heart_rate while that call is at most 30 seconds old, and an
    empty body with status 200 before any [Send] and once the last one is
    older.  The empty answer carries the Content-Type this program sets;
    the answer with the metric carries the one the library negotiates from
    the Accept header of the request. *)
Theorem single_metric_scrape (port : Z) (sends : list (GoTime.time * Z))
    (accept : string) (now : GoTime.time) :
  let p := prometheus_sends (newPrometheusExporter port) sends in
  let empty :=
    mkResponse 200 (Some "text/plain; version=0.0.4; charset=utf-8") NoBody in
  prometheusExporter_ServeHTTP expfmt_Negotiate p accept now
  = match rev sends with
    | [] => empty
    | (t, rate) :: _ =>
        if (t =? 0) || (30 * GoTime.Second <? now - t) then empty
        else mkResponse 200 (Some (expfmt_Negotiate accept))
               (MetricsBody
                  [mkMetricFamily "heart_rate"
                     "Current heart rate in beats per minute" Gauge
                     (Float64.of_int rate)])
    end.
Proof.
  intros p empty. subst p. rewrite prometheus_sends_last.
  unfold prometheusExporter_ServeHTTP.
  destruct (rev sends) as [|[t rate] rest]; [reflexivity|].
  cbn [lastReceived rateGauge]. rewrite Since_in_window.
  unfold GoTime.IsZero. now destruct ((t =? 0) || _).
Qed.

Lemma normalized32_below_256 :
  forallb (fun k =>
             float64_same
               (Float32.div (Float32.of_int (Z.of_nat k)) (Float32.of_int 256))
               (Float32.of_dyadic (Z.of_nat k) (-8)))
          (seq 0 256)
  = true.
Proof. vm_compute. reflexivity. Qed.

Lemma normalized32_exact (rate : Z) :
  0 <= rate < 256 ->
  Float32.div (Float32.of_int rate) (Float32.of_int 256)
  = Float32.of_dyadic rate (-8).
Proof.
  intros Hrange. pose proof normalized32_below_256 as Hall.
  rewrite forallb_forall in Hall.
  specialize (Hall (Z.to_nat rate)). rewrite Z2Nat.id in Hall by lia.
  apply float64_same_eq, Hall, in_seq. lia.
Qed.

(** X21.  Both single-metric senders, [oscExporter.Send] and [sendOSCData]
    of the first main.go, make one send to the configured address for every
    rate, whatever it is; for a rate of at least 0 and below 256 the float32
    they send is the exact quotient rate/256. *)
Theorem single_metric_osc_value (sendIP : string) (sendPort : Z)
    (addr : string) (rate : Z) :
  0 <= rate < 256 ->
  let o := newOSCExporter sendIP sendPort addr in
  let value := Float32.of_dyadic rate (-8) in
  oscExporter_Send osc_Client_Send o rate
  = (o, [OSCSend addr [value]], osc_Client_Send (client o) addr [value]) /\
  sendOSCData osc_Client_Send (client o) addr rate
  = ([OSCSend addr [value]], osc_Client_Send (client o) addr [value]).
Proof.
  intros Hrange o value. unfold oscExporter_Send, sendOSCData.
  cbn [heartRateMax addrName client o newOSCExporter].
  now rewrite (normalized32_exact rate Hrange).
Qed.

(** X22.  The handler of the first main.go accepts exactly the payloads
    "heartRate:" followed by a string [strconv.Atoi] accepts.  An accepted
    payload is answered 200 and makes one OSC send of float32(rate)/256; when
    that send fails the answer is still 200 and the failure is only logged. *)
Theorem first_main_push (c : oscClient) (oscAddrName : string)
    (r : decodedBody) :
  let '(resp, evs) := main_dataHandler osc_Client_Send c oscAddrName r in
  (StatusCode resp = 200 \/ StatusCode resp = 400) /\
  (StatusCode resp = 200 <->
   exists rateStr rate,
     r = putData ("heartRate:" ++ rateStr)%string /\
     GoStrconv.Atoi rateStr = Some rate) /\
  (forall rateStr rate,
     r = putData ("heartRate:" ++ rateStr)%string ->
     GoStrconv.Atoi rateStr = Some rate ->
     let value := Float32.div (Float32.of_int rate) (Float32.of_int 256) in
     resp = mkResponse 200 None NoBody /\
     evs = [Log LevelInfo "Received req"; OSCSend oscAddrName [value]]
           ++ match osc_Client_Send c oscAddrName [value] with
              | Some _ => [Log LevelError "Error sending osc data"]
              | None => []
              end) /\
  (StatusCode resp = 400 -> forall e, In e evs -> exists l m, e = Log l m).
Proof.
  assert (Hlogs : forall l m l' m' (e : event),
             In e [Log l m; Log l' m'] -> exists a b, e = Log a b)
    by (intros l m l' m' e [<-|[<-|[]]]; eauto).
  destruct r as [err|[data]].
  - cbn. split; [now right|].
    split; [split; [discriminate|];
            intros (rs & rate & Hr & _); discriminate Hr|].
    split; [intros rs rate Hr; discriminate Hr|].
    intros _ e [<-|[]]. eauto.
  - assert (Hacc : forall rs rate,
               Decoded (mkHdsRequest data)
               = putData ("heartRate:" ++ rs)%string ->
               GoStrconv.Atoi rs = Some rate ->
               HasPrefix data hdsDataPrefix = true /\
               GoStrconv.Atoi (TrimPrefix data hdsDataPrefix) = Some rate).
    { intros rs rate Hr Hok. apply putData_inv in Hr.
      apply accepted_payload. now exists rs. }
    unfold main_dataHandler. cbn [req_Data].
    destruct (HasPrefix data hdsDataPrefix) eqn:Hpre; cbn [negb];
      [destruct (GoStrconv.Atoi (TrimPrefix data hdsDataPrefix))
         as [rate|] eqn:Hrate|].
    + unfold sendOSCData. cbn [StatusCode].
      destruct (proj1 (accepted_payload data rate) (conj Hpre Hrate))
        as (rs0 & Hdata & Hok0).
      split; [now left|]. split; [|split; [|discriminate]].
      * split; [|reflexivity]. intros _. exists rs0, rate.
        split; [|exact Hok0]. unfold putData. now rewrite Hdata.
      * intros rs rate' Hr Hok. destruct (Hacc rs rate' Hr Hok) as [_ Hsame].
        assert (rate' = rate) by congruence. subst rate'.
        split; reflexivity.
    + cbn [StatusCode http_Error]. split; [now right|].
      split; [split; [discriminate|]|].
      * intros (rs & rate & Hr & Hok).
        destruct (Hacc rs rate Hr Hok) as [_ Hsame]. discriminate Hsame.
      * split; [|intros _; apply Hlogs].
        intros rs rate Hr Hok.
        destruct (Hacc rs rate Hr Hok) as [_ Hsame]. discriminate Hsame.
    + cbn [StatusCode http_Error]. split; [now right|].
      split; [split; [discriminate|]|].
      * intros (rs & rate & Hr & Hok).
        destruct (Hacc rs rate Hr Hok) as [Hsame _]. discriminate Hsame.
      * split; [|intros _; apply Hlogs].
        intros rs rate Hr Hok.
        destruct (Hacc rs rate Hr Hok) as [Hsame _]. discriminate Hsame.
Qed.
End Exporters.

Lemma single_metric_osc_value_witness :
  fst (sendOSCData (fun _ _ _ => None) (mkOscClient "127.0.0.1" 9000)
         "/avatar/parameters/HeartRate" 80)
  = [OSCSend "/avatar/parameters/HeartRate" [Float32.of_dyadic 5 (-4)]].
Proof.
  destruct (single_metric_osc_value (fun _ _ _ => None) "127.0.0.1" 9000
              "/avatar/parameters/HeartRate" 80) as [_ Hsend].
  - split; [discriminate | reflexivity].
  - cbv zeta in Hsend. cbn [client newOSCExporter] in Hsend.
    rewrite Hsend. reflexivity.
Defined.
End SingleMetricFacts.


(** ** The pull receiver across reconnects *)

Section PullReceiverFrames.
Context {E : Type} `{exporter E}.

Lemma Start_turn_forwards (h : wsPullReceiver) (s : session) :
  let h' := fst (fst (wsPullReceiver_Start_turn h s)) in
  ws_exporters h' = forwardAll (ws_exporters h) (sessionFrames s) /\
  ws_addr h' = ws_addr h.
Proof.
  unfold wsPullReceiver_Start_turn.
  destruct s as [err|msgs ending]; [now split|].
  cbn [wsPullReceiver_connect sessionFrames].
  pose proof (receiveMessages_forwardAll msgs (ws_exporters h)) as Hfw.
  destruct (receiveMessages (ws_exporters h) msgs) as [exporters evs].
  cbn [fst] in Hfw. subst exporters.
  destruct ending; now split.
Qed.

Lemma Start_forwards (sessions : list session) :
  forall h : wsPullReceiver,
    let h' := fst (wsPullReceiver_Start h sessions) in
    ws_exporters h'
    = forwardAll (ws_exporters h) (flat_map sessionFrames sessions) /\
    ws_addr h' = ws_addr h.
Proof.
  induction sessions as [|s rest IH]; intros h; [now split|].
  cbn [wsPullReceiver_Start flat_map].
  destruct (Start_turn_forwards h s) as [Hexp Haddr].
  destruct (wsPullReceiver_Start_turn h s) as [[h1 evs] slept].
  cbn [fst] in Hexp, Haddr.
  destruct (IH h1) as [Hexp' Haddr'].
  destruct (wsPullReceiver_Start h1 rest) as [h2 turns].
  cbn [fst] in *. split; [|congruence].
  rewrite Hexp', Hexp. unfold forwardAll. now rewrite fold_left_app.
Qed.

(** X23.  Across any number of reconnects the pull receiver hands the
    exporters every frame of every session, in the order received: the
    exporters after a run are what they are after all those frames in a row,
    failed dials contribute nothing, and the address dialled never
    changes. *)
Theorem Start_forwards_all_frames (exporters : list E) (addr : string)
    (sessions : list session) :
  let h := fst (wsPullReceiver_Start (newWSPullReceiver exporters addr)
                  sessions) in
  ws_exporters h = forwardAll exporters (flat_map sessionFrames sessions) /\
  ws_addr h = addr.
Proof. apply (Start_forwards sessions (newWSPullReceiver exporters addr)). Qed.
End PullReceiverFrames.

(** A recorder behind a pull receiver that met a failed dial, a session cut
    by a read error after one frame and a session of two frames that the
    peer then closed normally has the three frames in order. *)
Example pull_receiver_keeps_order :
  let m (t : Z) := mkWsUpdateMessage (record_at t 80) "heartRate" in
  map received
      (ws_exporters
         (fst (wsPullReceiver_Start
                 (newWSPullReceiver [mkRecorder []] "ws://h/ws")
                 (map sessionOf
                    [Refused "refused";
                     Ended [m 1] (Websocket.ReadFails "reset");
                     Ended [m 2; m 3] (Websocket.CloseFrame 1000 "")]))))
  = [[(record_at 1 80, "heartRate"); (record_at 2 80, "heartRate");
      (record_at 3 80, "heartRate")]].
Proof. reflexivity. Qed.
